(** * PinholeViewer: exposure model, viewfinder geometry and profile storage

    A shallow embedding of the computational parts of the PinholeViewer
    screens:

    - [src/frontend/screens/ViewfinderScreen.tsx] (module [ViewfinderScreen]),
    - [src/unnamed/part_002] and [src/unnamed/part_003], two further drafts of
      the same screen (modules [Part002] and [Part003]),
    - [src/unnamed/part_001], the camera settings screen with its profile
      storage (module [CameraSettingsScreen]).

    JavaScript numbers are modelled as exact real numbers ([R]): every
    arithmetic operator is the exact one, and the non-finite values [NaN]
    and [Infinity] have no counterpart.  Rounding of IEEE doubles is
    therefore outside this development. *)

From Stdlib Require Import Reals Lra Lia ZArith List Bool.
From Stdlib Require Import Ascii String DecimalString DecimalPos.
Import ListNotations.

Open Scope R_scope.

(** ** The JavaScript primitives the screens use *)

Module JS.

(** [x > y] and [x < y] on numbers. *)
Definition gt (x y : R) : bool := if Rlt_dec y x then true else false.
Definition lt (x y : R) : bool := if Rlt_dec x y then true else false.

(** [Math.floor]; the result is integer valued and kept as a [Z]. *)
Definition Math_floor (x : R) : Z := Zfloor x.

(** [Math.round]: the nearest integer, a tie going towards +infinity. *)
Definition Math_round (x : R) : Z := Zfloor (x + / 2).

(** Truncation towards zero, as used by the remainder operator. *)
Definition trunc (x : R) : Z := if Rlt_dec x 0 then Zceil x else Zfloor x.

(** [a % n]: the remainder takes the sign of the dividend. *)
Definition rem (a n : R) : R := a - n * IZR (trunc (a / n)).

(** [Math.pow(b, e)].  For an integer exponent the power is the iterated
    product (so a zero or negative base is fine); otherwise it is
    [exp (e * ln b)], which is what JavaScript computes for a positive
    base (for a negative base JavaScript yields [NaN]). *)
Definition Math_pow (b e : R) : R :=
  if Req_dec_T e (IZR (Zfloor e)) then powerRZ b (Zfloor e) else Rpower b e.

(** Interpolation [`${n}`] of an integer-valued number: its decimal
    digits, with a leading minus sign when negative.  (From 1e21 on
    JavaScript switches to exponent notation, which needs the digits of
    the double and is not modelled.) *)
Definition toString (n : Z) : string := NilZero.string_of_int (Z.to_int n).

(** [x.toFixed(1)]: let [n] be the integer for which [n / 10 - x] is as
    close to zero as possible, the larger one on a tie; print the digits
    of [n] with a point before the last one.  A negative [x] is printed
    as a minus sign followed by the rendering of [- x]. *)
Definition toFixed1_nonneg (x : R) : string :=
  let n := Zfloor (10 * x + / 2) in
  (toString (n / 10) ++ "." ++ toString (n mod 10))%string.

Definition toFixed1 (x : R) : string :=
  if Rlt_dec x 0 then ("-" ++ toFixed1_nonneg (- x))%string
  else toFixed1_nonneg x.

(** Decimal digits. *)
Definition digit (c : ascii) : option Z :=
  let n := Z.of_nat (nat_of_ascii c) in
  if ((48 <=? n) && (n <=? 57))%Z then Some (n - 48)%Z else None.

(** [readDigits s acc k] consumes the leading digits of [s]; it returns
    the number read (continuing [acc]), how many digits were consumed
    (continuing [k]) and the rest of the string. *)
Fixpoint readDigits (s : string) (acc : Z) (k : nat) : Z * nat * string :=
  match s with
  | String c rest =>
      match digit c with
      | Some d => readDigits rest (10 * acc + d)%Z (S k)
      | None => (acc, k, s)
      end
  | EmptyString => (acc, k, s)
  end.

(** The value of an unsigned decimal literal [ddd.ddd] at the head of
    [s]; [None] when [s] starts with no digit at all. *)
Definition parseUnsigned (s : string) : option R :=
  let '(i, ki, rest) := readDigits s 0%Z 0%nat in
  match rest with
  | String "."%char rest' =>
      let '(f, kf, _) := readDigits rest' 0%Z 0%nat in
      match ki, kf with
      | O, O => None
      | _, _ => Some (IZR i + IZR f / 10 ^ kf)
      end
  | _ => match ki with O => None | _ => Some (IZR i) end
  end.

(** [parseFloat] on a decimal literal without exponent.  JavaScript
    returns [NaN] when no literal can be read; as [NaN] has no
    counterpart here that case yields [0].  The screens only ever parse
    the output of [toFixed], in which a literal is always read (lemma
    [parseFloat_toFixed1]). *)
Definition parseFloat (s : string) : R :=
  match s with
  | String c rest =>
      if Ascii.eqb c "-" then
        match parseUnsigned rest with Some v => - v | None => 0 end
      else
        match parseUnsigned s with Some v => v | None => 0 end
  | EmptyString => 0
  end.

(** [Math.sqrt], on a non-negative number (JavaScript yields [NaN] for a
    negative one). *)
Definition Math_sqrt (x : R) : R := sqrt x.

(** [x.toFixed(2)]: the integer [n] nearest to [100 * x], the larger one
    on a tie, printed with a point before its last two digits. *)
Definition toFixed2_nonneg (x : R) : string :=
  let n := Zfloor (100 * x + / 2) in
  (toString (n / 100) ++ "." ++ toString ((n / 10) mod 10)
   ++ toString (n mod 10))%string.

Definition toFixed2 (x : R) : string :=
  if Rlt_dec x 0 then ("-" ++ toFixed2_nonneg (- x))%string
  else toFixed2_nonneg x.

End JS.

(** ** The shared types *)

(** The screens import their types from [../types], which is not among
    the sources; the declarations below follow section 3 of the
    specification and the fields the screens read. *)

(** Modelled from the spec: the type [FilmOrientation] of [../types], the
    enumeration [landscape | portrait]. *)
Inductive FilmOrientation := landscape | portrait.

(** Modelled from the spec: an entry of [FILM_FORMATS] in [../types], a
    named film frame with its [width] and [height]. *)
Record FilmFormat := {
  format_name : string;
  format_width : R;
  format_height : R
}.

(** Modelled from the spec: an entry of [LIGHTING_CONDITIONS] in
    [../types], a [name] and a reference [fStop]. *)
Record LightingCondition := {
  condition_name : string;
  fStop : R
}.

(** Modelled from the spec: the type [AppSettings] of [../types].  The
    film orientation and the selected condition may be absent. *)
Record AppSettings := {
  focalLength : R;
  pinholeSize : R;
  filmFormat : FilmFormat;
  filmOrientation : option FilmOrientation;
  iso : R;
  selectedCondition : option string;
  bracketStops : R;
  useReciprocityFailure : bool;
  useRedFilter : bool
}.

(** A pair [{ width, height }]: the window dimensions, the effective film
    dimensions and the viewfinder rectangle all have this shape. *)
Record Size := { width : R; height : R }.

(** Truthiness of an optional string: [undefined], [null] and the empty
    string are falsy. *)
Definition truthy (s : option string) : bool :=
  match s with
  | Some (String _ _) => true
  | _ => false
  end.

(** [LIGHTING_CONDITIONS.find(c => c.name === name)]. *)
Definition findCondition (catalog : list LightingCondition) (name : option string)
  : option LightingCondition :=
  match name with
  | Some n => find (fun c => String.eqb (condition_name c) n) catalog
  | None => None
  end.

(** ** src/frontend/screens/ViewfinderScreen.tsx *)

Module ViewfinderScreen.
Section Component.

(** The static catalog imported from [../types]; its entries are not
    among the sources, so it is a parameter of the screen. *)
Variable LIGHTING_CONDITIONS : list LightingCondition.

(** The props and the state of the component. *)
Variable settings : AppSettings.
Variable dimensions : Size.

Definition isDeviceLandscape : bool :=
  JS.gt (width dimensions) (height dimensions).

Definition calculateFStop : string :=
  JS.toFixed1 (focalLength settings / pinholeSize settings).

Definition getEffectiveDimensions : Size :=
  let orientation :=
    match filmOrientation settings with
    | Some o => o
    | None => landscape
    end in
  match orientation with
  | portrait =>
      {| width := format_height (filmFormat settings);
         height := format_width (filmFormat settings) |}
  | landscape =>
      {| width := format_width (filmFormat settings);
         height := format_height (filmFormat settings) |}
  end.

Definition calculateViewfinderSize : Size :=
  let screenWidth := width dimensions in
  let screenHeight := height dimensions in
  let effectiveDims := getEffectiveDimensions in
  let filmAspectRatio := width effectiveDims / height effectiveDims in
  if isDeviceLandscape then
    let availableWidth := screenWidth * 0.58 in
    let availableHeight := screenHeight - 20 in
    let viewfinderHeight := availableHeight * 0.92 in
    let viewfinderWidth := viewfinderHeight * filmAspectRatio in
    if JS.gt viewfinderWidth availableWidth then
      let viewfinderWidth := availableWidth in
      let viewfinderHeight := viewfinderWidth / filmAspectRatio in
      {| width := viewfinderWidth; height := viewfinderHeight |}
    else
      {| width := viewfinderWidth; height := viewfinderHeight |}
  else
    let availableWidth := screenWidth - 32 in
    let availableHeight := screenHeight * 0.50 in
    let viewfinderWidth := availableWidth * 0.95 in
    let viewfinderHeight := viewfinderWidth / filmAspectRatio in
    if JS.gt viewfinderHeight availableHeight then
      let viewfinderHeight := availableHeight in
      let viewfinderWidth := viewfinderHeight * filmAspectRatio in
      {| width := viewfinderWidth; height := viewfinderHeight |}
    else
      {| width := viewfinderWidth; height := viewfinderHeight |}.

Definition formatExposure (seconds : R) : string :=
  if JS.lt seconds 1 then
    ("1/" ++ JS.toString (JS.Math_round (1 / seconds)) ++ "s")%string
  else if JS.lt seconds 60 then
    (JS.toFixed1 seconds ++ "s")%string
  else
    let minutes := JS.Math_floor (seconds / 60) in
    let secs := JS.Math_round (JS.rem seconds 60) in
    if (0 <? secs)%Z
    then (JS.toString minutes ++ "m " ++ JS.toString secs ++ "s")%string
    else (JS.toString minutes ++ "m")%string.

(** The value of the local [exposureTime] of [calculateExposure] when it
    is handed to [formatExposure], for the catalog entry [condition]. *)
Definition exposureTime (condition : LightingCondition) : R :=
  let actualFStop := JS.parseFloat calculateFStop in
  let referenceFStop := fStop condition in
  let baseExposure := 1 / iso settings in
  let exposureTime := baseExposure * JS.Math_pow (actualFStop / referenceFStop) 2 in
  let exposureTime :=
    if useReciprocityFailure settings && JS.gt exposureTime 1
    then JS.Math_pow exposureTime 1.3
    else exposureTime in
  let exposureTime :=
    if useRedFilter settings then exposureTime * 8 else exposureTime in
  let bracketMultiplier := JS.Math_pow 2 (bracketStops settings) in
  exposureTime * bracketMultiplier.

(** [null] is [None]. *)
Definition calculateExposure : option string :=
  if negb (truthy (selectedCondition settings)) then None
  else
    match findCondition LIGHTING_CONDITIONS (selectedCondition settings) with
    | None => None
    | Some condition => Some (formatExposure (exposureTime condition))
    end.

(** [handleBracketChange] and [toggleOrientation] call [updateSettings];
    they are modelled by the settings record they hand to it. *)
Definition handleBracketChange (value : R) : AppSettings :=
  {| focalLength := focalLength settings; pinholeSize := pinholeSize settings;
     filmFormat := filmFormat settings; filmOrientation := filmOrientation settings;
     iso := iso settings; selectedCondition := selectedCondition settings;
     bracketStops := value;
     useReciprocityFailure := useReciprocityFailure settings;
     useRedFilter := useRedFilter settings |}.

Definition toggleOrientation : AppSettings :=
  let newOrientation :=
    match filmOrientation settings with
    | Some portrait => landscape
    | _ => portrait
    end in
  {| focalLength := focalLength settings; pinholeSize := pinholeSize settings;
     filmFormat := filmFormat settings; filmOrientation := Some newOrientation;
     iso := iso settings; selectedCondition := selectedCondition settings;
     bracketStops := bracketStops settings;
     useReciprocityFailure := useReciprocityFailure settings;
     useRedFilter := useRedFilter settings |}.

(** The constant [calculatedExposure] of the component. *)
Definition calculatedExposure : option string := calculateExposure.

(** Whether the component renders the exposure panel and the bracket
    slider.  [permission] is what [useCameraPermissions] yields: [null]
    ([None]) until the permission state is known, then an object with the
    flag [granted].  The component returns an empty view while
    [!permission]; the two permission screens ([!permission.granted]) and
    the two viewfinder layouts all contain the panel and the slider, each
    rendered unless [!calculatedExposure]. *)
Definition exposurePanelRendered (permission : option bool) : bool :=
  let panel := if negb (truthy calculatedExposure) then false else true in
  match permission with
  | None => false
  | Some granted =>
      if negb granted then
        if isDeviceLandscape then panel else panel
      else
        if isDeviceLandscape then panel else panel
  end.

End Component.
End ViewfinderScreen.

(** ** src/unnamed/part_002: an earlier draft of the viewfinder screen *)

Module Part002.
Section Component.

Variable LIGHTING_CONDITIONS : list LightingCondition.
Variable settings : AppSettings.
Variable dimensions : Size.

Definition calculateFStop : string :=
  JS.toFixed1 (focalLength settings / pinholeSize settings).

Definition getEffectiveDimensions : Size :=
  let orientation :=
    match filmOrientation settings with
    | Some o => o
    | None => landscape
    end in
  match orientation with
  | portrait =>
      {| width := format_height (filmFormat settings);
         height := format_width (filmFormat settings) |}
  | landscape =>
      {| width := format_width (filmFormat settings);
         height := format_height (filmFormat settings) |}
  end.

Definition calculateViewfinderSize : Size :=
  let screenWidth := width dimensions in
  let screenHeight := height dimensions in
  let isScreenLandscape := JS.gt screenWidth screenHeight in
  let effectiveDims := getEffectiveDimensions in
  let filmAspectRatio := width effectiveDims / height effectiveDims in
  if isScreenLandscape then
    let availableHeight := screenHeight - 200 in
    let viewfinderHeight := availableHeight * 0.85 in
    let viewfinderWidth := viewfinderHeight * filmAspectRatio in
    if JS.gt viewfinderWidth (screenWidth * 0.85) then
      let viewfinderWidth := screenWidth * 0.85 in
      let viewfinderHeight := viewfinderWidth / filmAspectRatio in
      {| width := viewfinderWidth; height := viewfinderHeight |}
    else
      {| width := viewfinderWidth; height := viewfinderHeight |}
  else
    let availableWidth := screenWidth - 48 in
    let availableHeight := screenHeight * 0.55 in
    let viewfinderWidth := availableWidth * 0.95 in
    let viewfinderHeight := viewfinderWidth / filmAspectRatio in
    if JS.gt viewfinderHeight availableHeight then
      let viewfinderHeight := availableHeight in
      let viewfinderWidth := viewfinderHeight * filmAspectRatio in
      {| width := viewfinderWidth; height := viewfinderHeight |}
    else
      {| width := viewfinderWidth; height := viewfinderHeight |}.

Definition formatExposure (seconds : R) : string :=
  if JS.lt seconds 1 then
    ("1/" ++ JS.toString (JS.Math_round (1 / seconds)) ++ "s")%string
  else if JS.lt seconds 60 then
    (JS.toFixed1 seconds ++ "s")%string
  else
    let minutes := JS.Math_floor (seconds / 60) in
    let secs := JS.Math_round (JS.rem seconds 60) in
    if (0 <? secs)%Z
    then (JS.toString minutes ++ "m " ++ JS.toString secs ++ "s")%string
    else (JS.toString minutes ++ "m")%string.

Definition exposureTime (condition : LightingCondition) : R :=
  let actualFStop := JS.parseFloat calculateFStop in
  let referenceFStop := fStop condition in
  let baseExposure := 1 / iso settings in
  let exposureTime := baseExposure * JS.Math_pow (actualFStop / referenceFStop) 2 in
  let exposureTime :=
    if useReciprocityFailure settings && JS.gt exposureTime 1
    then JS.Math_pow exposureTime 1.3
    else exposureTime in
  let exposureTime :=
    if useRedFilter settings then exposureTime * 8 else exposureTime in
  let bracketMultiplier := JS.Math_pow 2 (bracketStops settings) in
  exposureTime * bracketMultiplier.

Definition calculateExposure : option string :=
  if negb (truthy (selectedCondition settings)) then None
  else
    match findCondition LIGHTING_CONDITIONS (selectedCondition settings) with
    | None => None
    | Some condition => Some (formatExposure (exposureTime condition))
    end.

End Component.
End Part002.

(** ** src/unnamed/part_003: the draft with the viewfinder on the right *)

Module Part003.
Section Component.

Variable LIGHTING_CONDITIONS : list LightingCondition.
Variable settings : AppSettings.
Variable dimensions : Size.

Definition isLandscape : bool :=
  JS.gt (width dimensions) (height dimensions).

Definition calculateFStop : string :=
  JS.toFixed1 (focalLength settings / pinholeSize settings).

Definition getEffectiveDimensions : Size :=
  let orientation :=
    match filmOrientation settings with
    | Some o => o
    | None => landscape
    end in
  match orientation with
  | portrait =>
      {| width := format_height (filmFormat settings);
         height := format_width (filmFormat settings) |}
  | landscape =>
      {| width := format_width (filmFormat settings);
         height := format_height (filmFormat settings) |}
  end.

Definition calculateViewfinderSize : Size :=
  let screenWidth := width dimensions in
  let screenHeight := height dimensions in
  let effectiveDims := getEffectiveDimensions in
  let filmAspectRatio := width effectiveDims / height effectiveDims in
  if isLandscape then
    let availableWidth := screenWidth * 0.56 in
    let availableHeight := screenHeight - 80 in
    let viewfinderHeight := availableHeight * 0.85 in
    let viewfinderWidth := viewfinderHeight * filmAspectRatio in
    if JS.gt viewfinderWidth (availableWidth * 0.9) then
      let viewfinderWidth := availableWidth * 0.9 in
      let viewfinderHeight := viewfinderWidth / filmAspectRatio in
      {| width := viewfinderWidth; height := viewfinderHeight |}
    else
      {| width := viewfinderWidth; height := viewfinderHeight |}
  else
    let availableWidth := screenWidth - 32 in
    let availableHeight := screenHeight * 0.50 in
    let viewfinderWidth := availableWidth * 0.95 in
    let viewfinderHeight := viewfinderWidth / filmAspectRatio in
    if JS.gt viewfinderHeight availableHeight then
      let viewfinderHeight := availableHeight in
      let viewfinderWidth := viewfinderHeight * filmAspectRatio in
      {| width := viewfinderWidth; height := viewfinderHeight |}
    else
      {| width := viewfinderWidth; height := viewfinderHeight |}.

Definition formatExposure (seconds : R) : string :=
  if JS.lt seconds 1 then
    ("1/" ++ JS.toString (JS.Math_round (1 / seconds)) ++ "s")%string
  else if JS.lt seconds 60 then
    (JS.toFixed1 seconds ++ "s")%string
  else
    let minutes := JS.Math_floor (seconds / 60) in
    let secs := JS.Math_round (JS.rem seconds 60) in
    if (0 <? secs)%Z
    then (JS.toString minutes ++ "m " ++ JS.toString secs ++ "s")%string
    else (JS.toString minutes ++ "m")%string.

Definition exposureTime (condition : LightingCondition) : R :=
  let actualFStop := JS.parseFloat calculateFStop in
  let referenceFStop := fStop condition in
  let baseExposure := 1 / iso settings in
  let exposureTime := baseExposure * JS.Math_pow (actualFStop / referenceFStop) 2 in
  let exposureTime :=
    if useReciprocityFailure settings && JS.gt exposureTime 1
    then JS.Math_pow exposureTime 1.3
    else exposureTime in
  let exposureTime :=
    if useRedFilter settings then exposureTime * 8 else exposureTime in
  let bracketMultiplier := JS.Math_pow 2 (bracketStops settings) in
  exposureTime * bracketMultiplier.

Definition calculateExposure : option string :=
  if negb (truthy (selectedCondition settings)) then None
  else
    match findCondition LIGHTING_CONDITIONS (selectedCondition settings) with
    | None => None
    | Some condition => Some (formatExposure (exposureTime condition))
    end.

End Component.
End Part003.

(** ** src/unnamed/part_001: the camera settings screen and its profiles *)

Module CameraSettingsScreen.

Record Profile := {
  profile_id : string;
  profile_name : string;
  profile_focalLength : R;
  profile_pinholeSize : R;
  profile_filmFormat : FilmFormat;
  profile_filmOrientation : FilmOrientation;
  profile_iso : R
}.

(** [AsyncStorage]: a key-value store of texts.  When [fault] holds an
    error, the store is out of order and every request is rejected with
    that error. *)
Record Storage := {
  items : string -> option string;
  fault : option string
}.

(** What the component can read and change: its React state ([profiles],
    [profileName]), the store, the console, the alerts shown so far and the
    clock behind [Date.now()]. *)
Record World := {
  profiles : list Profile;
  profileName : string;
  storage : Storage;
  console : list (string * string);
  alerts : list (string * string);
  clock : Z
}.

(** How a call ends: it returns a value, or an exception leaves it (for an
    [async] function, the promise is fulfilled or rejected). *)
Inductive Completion (A : Type) : Type :=
| Returned (a : A)
| Thrown (error : string).
Arguments Returned {A} a.
Arguments Thrown {A} error.

(** Effectful code: a world in, a completion and a world out. *)
Definition M (A : Type) : Type := World -> Completion A * World.

Definition ret {A} (a : A) : M A := fun w => (Returned a, w).

Definition throw {A} (error : string) : M A := fun w => (Thrown error, w).

Definition bind {A B} (c : M A) (k : A -> M B) : M B :=
  fun w =>
    match c w with
    | (Returned a, w') => k a w'
    | (Thrown error, w') => (Thrown error, w')
    end.

(** [try { body } catch (error) { handler }]. *)
Definition try_catch {A} (body : M A) (handler : string -> M A) : M A :=
  fun w =>
    match body w with
    | (Returned a, w') => (Returned a, w')
    | (Thrown error, w') => handler error w'
    end.

Notation "x <- c ;; k" := (bind c (fun x => k))
  (at level 61, c at next level, right associativity).
Notation "c ;;; k" := (bind c (fun _ => k))
  (at level 61, right associativity).

(** The state hooks. *)
Definition getProfiles : M (list Profile) := fun w => (Returned (profiles w), w).
Definition getProfileName : M string := fun w => (Returned (profileName w), w).

Definition setProfiles (ps : list Profile) : M unit := fun w =>
  (Returned tt,
   {| profiles := ps; profileName := profileName w; storage := storage w;
      console := console w; alerts := alerts w; clock := clock w |}).

Definition setProfileName (n : string) : M unit := fun w =>
  (Returned tt,
   {| profiles := profiles w; profileName := n; storage := storage w;
      console := console w; alerts := alerts w; clock := clock w |}).

(** [console.error(message, error)] and [Alert.alert(title, message)]. *)
Definition console_error (message error : string) : M unit := fun w =>
  (Returned tt,
   {| profiles := profiles w; profileName := profileName w; storage := storage w;
      console := console w ++ [(message, error)]; alerts := alerts w;
      clock := clock w |}).

Definition Alert_alert (title message : string) : M unit := fun w =>
  (Returned tt,
   {| profiles := profiles w; profileName := profileName w; storage := storage w;
      console := console w; alerts := alerts w ++ [(title, message)];
      clock := clock w |}).

Definition Date_now : M Z := fun w => (Returned (clock w), w).

(** [AsyncStorage.getItem(key)] and [AsyncStorage.setItem(key, value)]. *)
Definition AsyncStorage_getItem (key : string) : M (option string) := fun w =>
  match fault (storage w) with
  | Some error => (Thrown error, w)
  | None => (Returned (items (storage w) key), w)
  end.

Definition AsyncStorage_setItem (key value : string) : M unit := fun w =>
  match fault (storage w) with
  | Some error => (Thrown error, w)
  | None =>
      (Returned tt,
       {| profiles := profiles w; profileName := profileName w;
          storage :=
            {| items := fun k => if String.eqb k key then Some value
                                 else items (storage w) k;
               fault := None |};
          console := console w; alerts := alerts w; clock := clock w |})
  end.

(** [s.trim()].  A string holds the UTF-8 bytes of a text.  The characters
    removed are the WhiteSpace and LineTerminator code points of
    ECMAScript: tab, line feed, vertical tab, form feed, carriage return,
    space, no-break space, the further space separators U+1680,
    U+2000..U+200A, U+202F, U+205F and U+3000, the line and paragraph
    separators U+2028 and U+2029, and the byte order mark U+FEFF. *)
Definition whiteSpaceCodePoints : list N :=
  [ 0x9; 0xA; 0xB; 0xC; 0xD; 0x20; 0xA0; 0x1680;
    0x2000; 0x2001; 0x2002; 0x2003; 0x2004; 0x2005; 0x2006; 0x2007;
    0x2008; 0x2009; 0x200A; 0x2028; 0x2029; 0x202F; 0x205F; 0x3000;
    0xFEFF ]%N.

(** The UTF-8 bytes of a code point below U+10000. *)
Definition utf8 (codePoint : N) : string :=
  if (codePoint <? 0x80)%N then
    String (ascii_of_N codePoint) EmptyString
  else if (codePoint <? 0x800)%N then
    String (ascii_of_N (0xC0 + codePoint / 0x40))
      (String (ascii_of_N (0x80 + codePoint mod 0x40)) EmptyString)
  else
    String (ascii_of_N (0xE0 + codePoint / 0x1000))
      (String (ascii_of_N (0x80 + (codePoint / 0x40) mod 0x40))
         (String (ascii_of_N (0x80 + codePoint mod 0x40)) EmptyString)).

Definition whiteSpaceCharacters : list string := map utf8 whiteSpaceCodePoints.

(** [character], the bytes of one character, is a white space character. *)
Definition isWhiteSpace (character : string) : bool :=
  existsb (String.eqb character) whiteSpaceCharacters.

(** The white space characters take one, two or three bytes. *)
Fixpoint trimStart (s : string) : string :=
  match s with
  | String c1 r1 =>
      if isWhiteSpace (String c1 EmptyString) then trimStart r1
      else
        match r1 with
        | String c2 r2 =>
            if isWhiteSpace (String c1 (String c2 EmptyString)) then trimStart r2
            else
              match r2 with
              | String c3 r3 =>
                  if isWhiteSpace (String c1 (String c2 (String c3 EmptyString)))
                  then trimStart r3
                  else s
              | EmptyString => s
              end
        | EmptyString => s
        end
  | EmptyString => EmptyString
  end.

(** The end is cut where only white space follows. *)
Fixpoint trimEnd (s : string) : string :=
  match s with
  | String c rest =>
      match trimStart s with
      | EmptyString => EmptyString
      | _ => String c (trimEnd rest)
      end
  | EmptyString => EmptyString
  end.

Definition trim (s : string) : string := trimEnd (trimStart s).

Definition isEmpty (s : string) : bool :=
  match s with EmptyString => true | _ => false end.

Section Component.

(** [JSON.stringify] and [JSON.parse] on profile lists belong to the
    runtime; [JSON_parse] yields [None] where [JSON.parse] throws. *)
Variable JSON_stringify : list Profile -> string.
Variable JSON_parse : string -> option (list Profile).

Variable settings : AppSettings.

Definition parseProfiles (text : string) : M (list Profile) :=
  match JSON_parse text with
  | Some ps => ret ps
  | None => throw "SyntaxError"
  end.

Definition loadProfiles : M unit :=
  try_catch
    (stored <- AsyncStorage_getItem "camera_profiles" ;;
     if truthy stored then
       match stored with
       | Some text => ps <- parseProfiles text ;; setProfiles ps
       | None => ret tt
       end
     else ret tt)
    (fun error => console_error "Error loading profiles:" error).

Definition saveProfile : M unit :=
  name <- getProfileName ;;
  if isEmpty (trim name) then
    Alert_alert "Error" "Please enter a profile name"
  else
    now <- Date_now ;;
    current <- getProfiles ;;
    let newProfile :=
      {| profile_id := JS.toString now;
         profile_name := name;
         profile_focalLength := focalLength settings;
         profile_pinholeSize := pinholeSize settings;
         profile_filmFormat := filmFormat settings;
         profile_filmOrientation :=
           match filmOrientation settings with
           | Some o => o
           | None => landscape
           end;
         profile_iso := iso settings |} in
    let updatedProfiles := current ++ [newProfile] in
    setProfiles updatedProfiles ;;;
    AsyncStorage_setItem "camera_profiles" (JSON_stringify updatedProfiles) ;;;
    setProfileName "" ;;;
    Alert_alert "Success" "Profile saved!".

Definition deleteProfile (id : string) : M unit :=
  current <- getProfiles ;;
  let updatedProfiles :=
    filter (fun p => negb (String.eqb (profile_id p) id)) current in
  setProfiles updatedProfiles ;;;
  AsyncStorage_setItem "camera_profiles" (JSON_stringify updatedProfiles).

(** [loadProfile] hands the settings with the camera fields of the
    profile to [updateSettings], closes the profile panel with
    [setShowProfiles(false)] and shows an alert; it returns the two values
    handed over. *)
Definition loadProfile (profile : Profile) : M (AppSettings * bool) :=
  let updated :=
    {| focalLength := profile_focalLength profile;
       pinholeSize := profile_pinholeSize profile;
       filmFormat := profile_filmFormat profile;
       filmOrientation := Some (profile_filmOrientation profile);
       iso := profile_iso profile;
       selectedCondition := selectedCondition settings;
       bracketStops := bracketStops settings;
       useReciprocityFailure := useReciprocityFailure settings;
       useRedFilter := useRedFilter settings |} in
  Alert_alert "Success" "Profile loaded!" ;;;
  ret (updated, false).

Definition calculateFStop : string :=
  JS.toFixed1 (focalLength settings / pinholeSize settings).

(** The number [calculateOptimalPinhole] renders, and its rendering. *)
Definition optimalPinhole : R :=
  let wavelength := 0.00055 in
  JS.Math_sqrt (1.9 * wavelength * focalLength settings).

Definition calculateOptimalPinhole : string := JS.toFixed2 optimalPinhole.

End Component.
End CameraSettingsScreen.

(** ** The specification's formulations *)

Module Spec.

(** The exposure steps in the specification's own terms: mathematical
    powers ([x ^ 2] the square, [Rpower] the real power), applied in the
    stated order.  [R0] is the reference f-stop of the matched condition. *)
Definition exposureSteps (focalLength pinholeSize iso R0 : R)
    (useReciprocityFailure useRedFilter : bool) (bracketStops : R) : R :=
  let actualFStop := JS.parseFloat (JS.toFixed1 (focalLength / pinholeSize)) in
  let t0 := (1 / iso) * (actualFStop / R0) ^ 2 in
  let t1 := if useReciprocityFailure && JS.gt t0 1 then Rpower t0 1.3 else t0 in
  let t2 := if useRedFilter then 8 * t1 else t1 in
  t2 * Rpower 2 bracketStops.

(** The exposure before the reciprocity correction, the red filter and the
    bracketing. *)
Definition baseExposureTime (settings : AppSettings) (condition : LightingCondition) : R :=
  (1 / iso settings)
  * (JS.parseFloat (JS.toFixed1 (focalLength settings / pinholeSize settings))
     / fStop condition) ^ 2.

(** What the red filter and the bracketing make of the exposure [t1] that
    leaves the reciprocity step. *)
Definition afterCorrection (settings : AppSettings) (t1 : R) : R :=
  (if useRedFilter settings then 8 * t1 else t1)
  * Rpower 2 (bracketStops settings).

(** The film dimensions after the orientation is taken into account. *)
Definition effectiveWidth (settings : AppSettings) : R :=
  match filmOrientation settings with
  | Some portrait => format_height (filmFormat settings)
  | _ => format_width (filmFormat settings)
  end.

Definition effectiveHeight (settings : AppSettings) : R :=
  match filmOrientation settings with
  | Some portrait => format_width (filmFormat settings)
  | _ => format_height (filmFormat settings)
  end.

Definition filmAspectRatio (settings : AppSettings) : R :=
  effectiveWidth settings / effectiveHeight settings.

(** The general viewfinder algorithm of section 4.2, steps 2 to 5: start
    from a candidate height, derive the candidate width, and only when that
    exceeds the width budget clamp the width and derive the height again. *)
Definition generalViewfinderSize (candidateHeight widthBudget aspectRatio : R) : Size :=
  let candidateWidth := candidateHeight * aspectRatio in
  if JS.gt candidateWidth widthBudget
  then {| width := widthBudget; height := widthBudget / aspectRatio |}
  else {| width := candidateWidth; height := candidateHeight |}.

(** The mirrored procedure, as the portrait branches are written: start
    from a candidate width, derive the candidate height, and only when that
    exceeds the height budget clamp the height and derive the width
    again. *)
Definition widthFirstViewfinderSize (candidateWidth heightBudget aspectRatio : R) : Size :=
  let candidateHeight := candidateWidth / aspectRatio in
  if JS.gt candidateHeight heightBudget
  then {| width := heightBudget * aspectRatio; height := heightBudget |}
  else {| width := candidateWidth; height := candidateHeight |}.

(** The constants of one layout: the candidate height is [heightFraction]
    of the vertical budget [screenHeight - heightMargin]; the width budget
    is [widthFraction] of [screenWidth - widthMargin]. *)
Record Layout := {
  heightFraction : R;
  heightMargin : R;
  widthFraction : R;
  widthMargin : R
}.

Definition candidateHeight (l : Layout) (dimensions : Size) : R :=
  (height dimensions - heightMargin l) * heightFraction l.

Definition widthBudget (l : Layout) (dimensions : Size) : R :=
  (width dimensions - widthMargin l) * widthFraction l.

Definition viewfinderSize (l : Layout) (settings : AppSettings) (dimensions : Size) : Size :=
  generalViewfinderSize (candidateHeight l dimensions) (widthBudget l dimensions)
    (filmAspectRatio settings).

(** The constants of the six layouts in the sources. *)
Definition viewfinder_landscape : Layout :=
  {| heightFraction := 0.92; heightMargin := 20;
     widthFraction := 0.58; widthMargin := 0 |}.
Definition viewfinder_portrait : Layout :=
  {| heightFraction := 0.50; heightMargin := 0;
     widthFraction := 0.95; widthMargin := 32 |}.
Definition part002_landscape : Layout :=
  {| heightFraction := 0.85; heightMargin := 200;
     widthFraction := 0.85; widthMargin := 0 |}.
Definition part002_portrait : Layout :=
  {| heightFraction := 0.55; heightMargin := 0;
     widthFraction := 0.95; widthMargin := 48 |}.
Definition part003_landscape : Layout :=
  {| heightFraction := 0.85; heightMargin := 80;
     widthFraction := 0.56 * 0.9; widthMargin := 0 |}.
Definition part003_portrait : Layout :=
  {| heightFraction := 0.50; heightMargin := 0;
     widthFraction := 0.95; widthMargin := 32 |}.

(** The space [ViewfinderScreen.tsx] grants the viewfinder: the
    [availableWidth] and [availableHeight] of the branch taken. *)
Definition availableWidth (dimensions : Size) : R :=
  if ViewfinderScreen.isDeviceLandscape dimensions
  then width dimensions * 0.58
  else width dimensions - 32.

Definition availableHeight (dimensions : Size) : R :=
  if ViewfinderScreen.isDeviceLandscape dimensions
  then height dimensions - 20
  else height dimensions * 0.50.

(** The layout each draft uses for a window. *)
Definition viewfinderLayout (dimensions : Size) : Layout :=
  if JS.gt (width dimensions) (height dimensions)
  then viewfinder_landscape else viewfinder_portrait.

Definition part002Layout (dimensions : Size) : Layout :=
  if JS.gt (width dimensions) (height dimensions)
  then part002_landscape else part002_portrait.

Definition part003Layout (dimensions : Size) : Layout :=
  if JS.gt (width dimensions) (height dimensions)
  then part003_landscape else part003_portrait.

(** A window leaves room in a layout when it exceeds both margins. *)
Definition leavesRoom (l : Layout) (dimensions : Size) : Prop :=
  heightMargin l < height dimensions /\ widthMargin l < width dimensions.

(** The rectangle [r] has the aspect ratio [ar] and lies within the box of
    width [W] and height [H]. *)
Definition fitsBox (ar W H : R) (r : Size) : Prop :=
  0 < height r /\ width r = height r * ar /\ width r <= W /\ height r <= H.

(** [s] renders [x] with exactly two decimal places, naming the hundredth
    nearest to [x]. *)
Definition twoDecimals (x : R) (s : string) : Prop :=
  exists q d1 d2 : Z,
    (0 <= q)%Z /\ (0 <= d1 <= 9)%Z /\ (0 <= d2 <= 9)%Z
    /\ s = (JS.toString q ++ "." ++ JS.toString d1 ++ JS.toString d2)%string
    /\ Rabs (x - (IZR q + IZR d1 / 10 + IZR d2 / 100)) <= / 200.

(** A string of white space only (the empty string included): read
    character by character, the length of a character being told by its
    first byte, every character is a white space character. *)
Fixpoint allWhiteSpace (s : string) : bool :=
  match s with
  | EmptyString => true
  | String c1 r1 =>
      if (N_of_ascii c1 <? 0x80)%N then
        CameraSettingsScreen.isWhiteSpace (String c1 EmptyString)
        && allWhiteSpace r1
      else if (N_of_ascii c1 <? 0xE0)%N then
        match r1 with
        | String c2 r2 =>
            CameraSettingsScreen.isWhiteSpace (String c1 (String c2 EmptyString))
            && allWhiteSpace r2
        | EmptyString => false
        end
      else
        match r1 with
        | String c2 (String c3 r3) =>
            CameraSettingsScreen.isWhiteSpace
              (String c1 (String c2 (String c3 EmptyString)))
            && allWhiteSpace r3
        | _ => false
        end
  end.

(** The UTF-8 text of a sequence of code points. *)
Definition utf8Text (codePoints : list N) : string :=
  fold_right (fun codePoint rest => (CameraSettingsScreen.utf8 codePoint ++ rest)%string)
    EmptyString codePoints.

(** The store after [value] was written under [key]. *)
Definition written (store : CameraSettingsScreen.Storage) (key value : string)
  : CameraSettingsScreen.Storage :=
  {| CameraSettingsScreen.items :=
       fun k => if String.eqb k key then Some value
                else CameraSettingsScreen.items store k;
     CameraSettingsScreen.fault := None |}.

(** The number a sequence of decimal digits denotes, read from the most
    significant digit on and continuing the number [acc]. *)
Fixpoint digitsValue (u : Decimal.uint) (acc : Z) : Z :=
  match u with
  | Decimal.Nil => acc
  | Decimal.D0 u => digitsValue u (10 * acc + 0)
  | Decimal.D1 u => digitsValue u (10 * acc + 1)
  | Decimal.D2 u => digitsValue u (10 * acc + 2)
  | Decimal.D3 u => digitsValue u (10 * acc + 3)
  | Decimal.D4 u => digitsValue u (10 * acc + 4)
  | Decimal.D5 u => digitsValue u (10 * acc + 5)
  | Decimal.D6 u => digitsValue u (10 * acc + 6)
  | Decimal.D7 u => digitsValue u (10 * acc + 7)
  | Decimal.D8 u => digitsValue u (10 * acc + 8)
  | Decimal.D9 u => digitsValue u (10 * acc + 9)
  end%Z.

(** A character that is no digit stops the reader. *)
Definition stopsDigits (rest : string) : Prop :=
  match rest with
  | String c _ => JS.digit c = None
  | EmptyString => True
  end.

(** The remainder of the division of a duration by [n]. *)
Definition modulo (x n : R) : R := x - n * IZR (Zfloor (x / n)).

(** [s] renders [x] with exactly one decimal place: an integer part, a
    point and one digit, naming the tenth nearest to [x]. *)
Definition oneDecimal (x : R) (s : string) : Prop :=
  exists q d : Z,
    (0 <= q)%Z /\ (0 <= d <= 9)%Z
    /\ s = (JS.toString q ++ "." ++ JS.toString d)%string
    /\ Rabs (x - (IZR q + IZR d / 10)) <= / 20.

(** The profile [saveProfile] builds from the settings, the name typed in
    and the clock. *)
Definition newProfile (settings : AppSettings) (w : CameraSettingsScreen.World)
  : CameraSettingsScreen.Profile :=
  {| CameraSettingsScreen.profile_id := JS.toString (CameraSettingsScreen.clock w);
     CameraSettingsScreen.profile_name := CameraSettingsScreen.profileName w;
     CameraSettingsScreen.profile_focalLength := focalLength settings;
     CameraSettingsScreen.profile_pinholeSize := pinholeSize settings;
     CameraSettingsScreen.profile_filmFormat := filmFormat settings;
     CameraSettingsScreen.profile_filmOrientation :=
       match filmOrientation settings with
       | Some o => o
       | None => landscape
       end;
     CameraSettingsScreen.profile_iso := iso settings |}.

End Spec.

(** Well-formed film formats: physical frame dimensions are positive. *)
Definition positiveFormat (settings : AppSettings) : Prop :=
  0 < format_width (filmFormat settings) /\ 0 < format_height (filmFormat settings).

(** Record updates [{ ...settings, field: value }]. *)
Definition withBracketStops (s : AppSettings) (b : R) : AppSettings :=
  {| focalLength := focalLength s; pinholeSize := pinholeSize s;
     filmFormat := filmFormat s; filmOrientation := filmOrientation s;
     iso := iso s; selectedCondition := selectedCondition s;
     bracketStops := b;
     useReciprocityFailure := useReciprocityFailure s;
     useRedFilter := useRedFilter s |}.

Definition withRedFilter (s : AppSettings) (f : bool) : AppSettings :=
  {| focalLength := focalLength s; pinholeSize := pinholeSize s;
     filmFormat := filmFormat s; filmOrientation := filmOrientation s;
     iso := iso s; selectedCondition := selectedCondition s;
     bracketStops := bracketStops s;
     useReciprocityFailure := useReciprocityFailure s;
     useRedFilter := f |}.

Definition withFilm (s : AppSettings) (w h : R) (o : option FilmOrientation)
  : AppSettings :=
  {| focalLength := focalLength s; pinholeSize := pinholeSize s;
     filmFormat := {| format_name := format_name (filmFormat s);
                      format_width := w; format_height := h |};
     filmOrientation := o;
     iso := iso s; selectedCondition := selectedCondition s;
     bracketStops := bracketStops s;
     useReciprocityFailure := useReciprocityFailure s;
     useRedFilter := useRedFilter s |}.

Definition withIso (s : AppSettings) (i : R) : AppSettings :=
  {| focalLength := focalLength s; pinholeSize := pinholeSize s;
     filmFormat := filmFormat s; filmOrientation := filmOrientation s;
     iso := i; selectedCondition := selectedCondition s;
     bracketStops := bracketStops s;
     useReciprocityFailure := useReciprocityFailure s;
     useRedFilter := useRedFilter s |}.

Definition withFocalLength (s : AppSettings) (f : R) : AppSettings :=
  {| focalLength := f; pinholeSize := pinholeSize s;
     filmFormat := filmFormat s; filmOrientation := filmOrientation s;
     iso := iso s; selectedCondition := selectedCondition s;
     bracketStops := bracketStops s;
     useReciprocityFailure := useReciprocityFailure s;
     useRedFilter := useRedFilter s |}.

Definition withReciprocityFailure (s : AppSettings) (f : bool) : AppSettings :=
  {| focalLength := focalLength s; pinholeSize := pinholeSize s;
     filmFormat := filmFormat s; filmOrientation := filmOrientation s;
     iso := iso s; selectedCondition := selectedCondition s;
     bracketStops := bracketStops s;
     useReciprocityFailure := f;
     useRedFilter := useRedFilter s |}.

(** ** Sample inputs *)

Definition brightSun : LightingCondition :=
  {| condition_name := "Bright Sun"; fStop := 16 |}.

(** The entries of the catalog are not among the sources; this sample
    catalog and the sample settings are only used to run the definitions
    on concrete inputs. *)
Definition sampleConditions : list LightingCondition :=
  [ brightSun; {| condition_name := "Overcast"; fStop := 8 |} ].

Definition film_6x9 : FilmFormat :=
  {| format_name := "6x9"; format_width := 90; format_height := 60 |}.

(** A pinhole camera of focal length 16 and aperture 1 (f/16) loaded with
    ISO 1 film under bright sun: an exposure of one second. *)
Definition sampleSettings : AppSettings :=
  {| focalLength := 16; pinholeSize := 1;
     filmFormat := film_6x9; filmOrientation := None;
     iso := 1; selectedCondition := Some "Bright Sun"%string;
     bracketStops := 0;
     useReciprocityFailure := true; useRedFilter := false |}.

(** The same camera with a condition the sample catalog does not list. *)
Definition moonlightSettings : AppSettings :=
  {| focalLength := 16; pinholeSize := 1;
     filmFormat := film_6x9; filmOrientation := None;
     iso := 1; selectedCondition := Some "Moonlight"%string;
     bracketStops := 0;
     useReciprocityFailure := true; useRedFilter := false |}.

Definition phonePortrait : Size := {| width := 400; height := 800 |}.
Definition phoneLandscape : Size := {| width := 800; height := 400 |}.

(** A window wider than tall but only ten units tall. *)
Definition tinyLandscape : Size := {| width := 100; height := 10 |}.

(** A settings screen with no saved profile, the name "Zero" typed in,
    and a store that rejects every request. *)
Definition brokenStore : CameraSettingsScreen.Storage :=
  {| CameraSettingsScreen.items := fun _ => None;
     CameraSettingsScreen.fault := Some "QuotaExceededError"%string |}.

Definition brokenWorld : CameraSettingsScreen.World :=
  {| CameraSettingsScreen.profiles := [];
     CameraSettingsScreen.profileName := "Zero";
     CameraSettingsScreen.storage := brokenStore;
     CameraSettingsScreen.console := [];
     CameraSettingsScreen.alerts := [];
     CameraSettingsScreen.clock := 1700000000000 |}.

(** A settings screen with one saved profile, the name "Zero" typed in and
    a working, empty store. *)
Definition oldProfile : CameraSettingsScreen.Profile :=
  {| CameraSettingsScreen.profile_id := "1600000000000";
     CameraSettingsScreen.profile_name := "Box";
     CameraSettingsScreen.profile_focalLength := 50;
     CameraSettingsScreen.profile_pinholeSize := 0.3;
     CameraSettingsScreen.profile_filmFormat := film_6x9;
     CameraSettingsScreen.profile_filmOrientation := portrait;
     CameraSettingsScreen.profile_iso := 100 |}.

Definition workingWorld : CameraSettingsScreen.World :=
  {| CameraSettingsScreen.profiles := [oldProfile];
     CameraSettingsScreen.profileName := "Zero";
     CameraSettingsScreen.storage :=
       {| CameraSettingsScreen.items := fun _ => None;
          CameraSettingsScreen.fault := None |};
     CameraSettingsScreen.console := [];
     CameraSettingsScreen.alerts := [];
     CameraSettingsScreen.clock := 1700000000000 |}.

(** The same screen with only blanks typed in (a space, a no-break space
    and an em space) and a store out of order. *)
Definition blankWorld : CameraSettingsScreen.World :=
  {| CameraSettingsScreen.profiles := [oldProfile];
     CameraSettingsScreen.profileName := Spec.utf8Text [0x20; 0xA0; 0x2003]%N;
     CameraSettingsScreen.storage := brokenStore;
     CameraSettingsScreen.console := [];
     CameraSettingsScreen.alerts := [];
     CameraSettingsScreen.clock := 1700000000000 |}.

(** A stand-in for the JSON codec on the one list the sample save writes. *)
Definition sampleStringify (ps : list CameraSettingsScreen.Profile) : string :=
  "[profiles]".

Definition sampleParse (text : string) : option (list CameraSettingsScreen.Profile) :=
  Some [oldProfile; Spec.newProfile sampleSettings workingWorld].

(** A small rectangle of aspect ratio 3 : 2. *)
Definition smallFrame : Size := {| width := 150; height := 100 |}.

(** * Properties *)

(** ** The primitives *)

Lemma gt_true (x y : R) : JS.gt x y = true <-> y < x.
Proof.
  unfold JS.gt. destruct (Rlt_dec y x); split; intros; try easy.
Qed.

Lemma gt_false (x y : R) : JS.gt x y = false <-> x <= y.
Proof.
  unfold JS.gt. destruct (Rlt_dec y x); split; intros; try easy; lra.
Qed.

Lemma lt_true (x y : R) : JS.lt x y = true <-> x < y.
Proof.
  unfold JS.lt. destruct (Rlt_dec x y); split; intros; try easy.
Qed.

Lemma lt_false (x y : R) : JS.lt x y = false <-> y <= x.
Proof.
  unfold JS.lt. destruct (Rlt_dec x y); split; intros; try easy; lra.
Qed.

(** Deciding a comparison between known reals. *)
Ltac decide_cmp :=
  repeat match goal with
  | |- context [JS.gt ?x ?y] =>
      first [ replace (JS.gt x y) with true by (symmetry; apply gt_true; lra)
            | replace (JS.gt x y) with false by (symmetry; apply gt_false; lra) ]
  | |- context [JS.lt ?x ?y] =>
      first [ replace (JS.lt x y) with true by (symmetry; apply lt_true; lra)
            | replace (JS.lt x y) with false by (symmetry; apply lt_false; lra) ]
  end.

(** Squaring through [Math.pow]. *)
Lemma Math_pow_2 (x : R) : JS.Math_pow x 2 = x ^ 2.
Proof.
  unfold JS.Math_pow. rewrite (ZfloorZ 2).
  destruct (Req_dec_T 2 2) as [_ | H]; [ | now elim H ].
  simpl. reflexivity.
Qed.

(** On a positive base [Math.pow] is the real power, whatever the
    exponent. *)
Lemma Math_pow_pos (b e : R) : 0 < b -> JS.Math_pow b e = Rpower b e.
Proof.
  intros Hb. unfold JS.Math_pow.
  destruct (Req_dec_T e (IZR (Zfloor e))) as [He | _]; [ | reflexivity ].
  rewrite (powerRZ_Rpower b (Zfloor e) Hb), <- He. reflexivity.
Qed.

Lemma Zfloor_1_3 : Zfloor 1.3 = 1%Z.
Proof. apply Zfloor_eq. lra. Qed.

(** The reciprocity exponent is not an integer. *)
Lemma Math_pow_1_3 (t : R) : JS.Math_pow t 1.3 = Rpower t 1.3.
Proof.
  unfold JS.Math_pow. rewrite Zfloor_1_3.
  destruct (Req_dec_T 1.3 1) as [H | _]; [ lra | reflexivity ].
Qed.

Lemma Rpower_2_pos (b : R) : 0 < Rpower 2 b.
Proof. unfold Rpower. apply exp_pos. Qed.

Lemma Rpower_2_succ (b : R) : Rpower 2 (b + 1) = 2 * Rpower 2 b.
Proof.
  rewrite Rpower_plus, Rpower_1 by lra. ring.
Qed.

(** Beyond one second the reciprocity correction strictly lengthens the
    exposure. *)
Lemma Rpower_1_3_gt (t : R) : 1 < t -> t < Rpower t 1.3.
Proof.
  intros Ht.
  rewrite <- (Rpower_1 t) at 1 by lra.
  apply Rpower_lt; lra.
Qed.

(** ** The exposure model *)

(** The pre-format exposure of the code, step by step in mathematical
    terms. *)
Lemma exposureTime_steps (settings : AppSettings) (condition : LightingCondition) :
  ViewfinderScreen.exposureTime settings condition =
  Spec.exposureSteps (focalLength settings) (pinholeSize settings) (iso settings)
    (fStop condition) (useReciprocityFailure settings) (useRedFilter settings)
    (bracketStops settings).
Proof.
  unfold ViewfinderScreen.exposureTime, Spec.exposureSteps,
    ViewfinderScreen.calculateFStop.
  cbv zeta.
  rewrite Math_pow_2, Math_pow_1_3, (Math_pow_pos 2) by lra.
  destruct (useReciprocityFailure settings && JS.gt _ 1)%bool;
    destruct (useRedFilter settings); ring.
Qed.

(** The same, split at the reciprocity step. *)
Lemma exposureTime_afterCorrection (settings : AppSettings) (condition : LightingCondition) :
  ViewfinderScreen.exposureTime settings condition =
  Spec.afterCorrection settings
    (if (useReciprocityFailure settings
         && JS.gt (Spec.baseExposureTime settings condition) 1)%bool
     then Rpower (Spec.baseExposureTime settings condition) 1.3
     else Spec.baseExposureTime settings condition).
Proof.
  rewrite exposureTime_steps.
  unfold Spec.exposureSteps, Spec.afterCorrection, Spec.baseExposureTime.
  reflexivity.
Qed.

(** [afterCorrection] is one-to-one: the factors 8 and [2 ^ b] are not
    zero. *)
Lemma afterCorrection_inj (settings : AppSettings) (x y : R) :
  Spec.afterCorrection settings x = Spec.afterCorrection settings y -> x = y.
Proof.
  unfold Spec.afterCorrection. intros H.
  pose proof (Rpower_2_pos (bracketStops settings)) as Hp.
  apply Rmult_eq_reg_r in H; [ | lra ].
  destruct (useRedFilter settings); lra.
Qed.

(** When the lookup succeeds, [calculateExposure] formats the pre-format
    exposure of the entry found. *)
Lemma calculateExposure_found (catalog : list LightingCondition)
    (settings : AppSettings) (name : string) (condition : LightingCondition) :
  selectedCondition settings = Some name ->
  name <> EmptyString ->
  find (fun c => String.eqb (condition_name c) name) catalog = Some condition ->
  ViewfinderScreen.calculateExposure catalog settings =
  Some (ViewfinderScreen.formatExposure
          (ViewfinderScreen.exposureTime settings condition)).
Proof.
  intros Hsel Hname Hfind.
  unfold ViewfinderScreen.calculateExposure. rewrite Hsel. simpl.
  destruct name as [ | a rest ]; [ now elim Hname | ].
  simpl negb. cbv iota. rewrite Hfind. reflexivity.
Qed.

(** In a catalog with one entry per name, every entry is the one its name
    looks up. *)
Lemma find_unique_name (catalog : list LightingCondition) (condition : LightingCondition) :
  NoDup (map condition_name catalog) ->
  In condition catalog ->
  find (fun c => String.eqb (condition_name c) (condition_name condition)) catalog
  = Some condition.
Proof.
  induction catalog as [ | c rest IH ]; intros Hnd Hin; [ easy | ].
  simpl in *. inversion Hnd as [ | ? ? Hnotin Hnd' ]; subst.
  destruct Hin as [-> | Hin].
  - now rewrite String.eqb_refl.
  - destruct (String.eqb_spec (condition_name c) (condition_name condition)) as [E | _].
    + elim Hnotin. rewrite E. now apply in_map.
    + now apply IH.
Qed.

(** C1: for a settings record with positive focal length, pinhole size and
    ISO whose selected condition names a catalog entry, the pre-format
    exposure of [calculateExposure] is the result of the steps in their
    stated order: [t0 = (1/iso) * (parseFloat(toFixed(f/p)) / R)^2], the
    power 1.3 when the reciprocity flag is set and [t0 > 1], the factor 8
    under the red filter, the factor [2 ^ bracketStops]; and the string
    shown is [formatExposure] of that value. *)
Theorem C1_exposure_steps (catalog : list LightingCondition)
    (settings : AppSettings) (name : string) (condition : LightingCondition) :
  0 < focalLength settings ->
  0 < pinholeSize settings ->
  0 < iso settings ->
  selectedCondition settings = Some name ->
  name <> EmptyString ->
  find (fun c => String.eqb (condition_name c) name) catalog = Some condition ->
  let t3 :=
    Spec.exposureSteps (focalLength settings) (pinholeSize settings)
      (iso settings) (fStop condition) (useReciprocityFailure settings)
      (useRedFilter settings) (bracketStops settings) in
  ViewfinderScreen.exposureTime settings condition = t3
  /\ ViewfinderScreen.calculateExposure catalog settings
     = Some (ViewfinderScreen.formatExposure t3).
Proof.
  intros _ _ _ Hsel Hname Hfind t3. subst t3.
  rewrite <- exposureTime_steps. split; [ reflexivity | ].
  now apply calculateExposure_found with (name := name).
Qed.

(** C5: with the reciprocity flag set and a matched condition, the power
    1.3 is applied exactly when the exposure before the correction exceeds
    one second: beyond one second the pre-format exposure is built from
    [t0 ^ 1.3] and differs from the one computed with the flag cleared; up
    to one second the pre-format exposure and the displayed string are
    those computed with the flag cleared. *)
Theorem C5_reciprocity_threshold (catalog : list LightingCondition)
    (settings : AppSettings) (name : string) (condition : LightingCondition) :
  selectedCondition settings = Some name ->
  name <> EmptyString ->
  find (fun c => String.eqb (condition_name c) name) catalog = Some condition ->
  useReciprocityFailure settings = true ->
  let t0 := Spec.baseExposureTime settings condition in
  let cleared := withReciprocityFailure settings false in
  (1 < t0 ->
     ViewfinderScreen.exposureTime settings condition
     = Spec.afterCorrection settings (Rpower t0 1.3)
     /\ ViewfinderScreen.exposureTime settings condition
        <> ViewfinderScreen.exposureTime cleared condition)
  /\ (t0 <= 1 ->
        ViewfinderScreen.exposureTime settings condition
        = Spec.afterCorrection settings t0
        /\ ViewfinderScreen.exposureTime settings condition
           = ViewfinderScreen.exposureTime cleared condition
        /\ ViewfinderScreen.calculateExposure catalog settings
           = ViewfinderScreen.calculateExposure catalog cleared).
Proof.
  intros Hsel Hname Hfind Hflag t0 cleared.
  assert (Hcleared : ViewfinderScreen.exposureTime cleared condition
                     = Spec.afterCorrection settings t0).
  { rewrite exposureTime_afterCorrection. reflexivity. }
  rewrite Hcleared, exposureTime_afterCorrection, Hflag. fold t0. simpl andb.
  split; intros Ht.
  - replace (JS.gt t0 1) with true by (symmetry; now apply gt_true).
    split; [ reflexivity | ].
    intros H. apply afterCorrection_inj in H.
    pose proof (Rpower_1_3_gt t0 Ht). lra.
  - replace (JS.gt t0 1) with false by (symmetry; now apply gt_false).
    split; [ reflexivity | split; [ reflexivity | ] ].
    rewrite (calculateExposure_found catalog settings name condition Hsel Hname Hfind).
    rewrite (calculateExposure_found catalog cleared name condition Hsel Hname Hfind).
    rewrite Hcleared, exposureTime_afterCorrection, Hflag. fold t0. simpl andb.
    replace (JS.gt t0 1) with false by (symmetry; now apply gt_false).
    reflexivity.
Qed.

(** C7: with a matched condition, one more bracket stop multiplies the
    pre-format exposure by exactly 2, whatever the reciprocity and red
    filter flags are; the string shown is the formatting of the doubled
    value. *)
Theorem C7_bracket_doubles (catalog : list LightingCondition)
    (settings : AppSettings) (name : string) (condition : LightingCondition) :
  selectedCondition settings = Some name ->
  name <> EmptyString ->
  find (fun c => String.eqb (condition_name c) name) catalog = Some condition ->
  let next := withBracketStops settings (bracketStops settings + 1) in
  ViewfinderScreen.exposureTime next condition
  = 2 * ViewfinderScreen.exposureTime settings condition
  /\ ViewfinderScreen.calculateExposure catalog next
     = Some (ViewfinderScreen.formatExposure
               (2 * ViewfinderScreen.exposureTime settings condition)).
Proof.
  intros Hsel Hname Hfind next.
  assert (H2 : ViewfinderScreen.exposureTime next condition
               = 2 * ViewfinderScreen.exposureTime settings condition).
  { rewrite !exposureTime_steps. unfold Spec.exposureSteps, next. simpl.
    rewrite Rpower_2_succ. ring. }
  split; [ exact H2 | ].
  rewrite <- H2.
  now apply calculateExposure_found with (name := name).
Qed.

(** C8: with a matched condition, the pre-format exposure under the red
    filter is exactly 8 times the one without it, whatever the reciprocity
    flag and the bracket stops are. *)
Theorem C8_red_filter_factor (catalog : list LightingCondition)
    (settings : AppSettings) (name : string) (condition : LightingCondition) :
  selectedCondition settings = Some name ->
  name <> EmptyString ->
  find (fun c => String.eqb (condition_name c) name) catalog = Some condition ->
  let filtered := withRedFilter settings true in
  let plain := withRedFilter settings false in
  ViewfinderScreen.exposureTime filtered condition
  = 8 * ViewfinderScreen.exposureTime plain condition
  /\ ViewfinderScreen.calculateExposure catalog filtered
     = Some (ViewfinderScreen.formatExposure
               (8 * ViewfinderScreen.exposureTime plain condition)).
Proof.
  intros Hsel Hname Hfind filtered plain.
  assert (H8 : ViewfinderScreen.exposureTime filtered condition
               = 8 * ViewfinderScreen.exposureTime plain condition).
  { rewrite !exposureTime_steps. unfold Spec.exposureSteps, filtered, plain.
    simpl. ring. }
  split; [ exact H8 | ].
  rewrite <- H8.
  now apply calculateExposure_found with (name := name).
Qed.

(** The lookup only ever returns an entry of the catalog carrying the name
    asked for. *)
Lemma findCondition_sound (catalog : list LightingCondition)
    (selected : option string) (condition : LightingCondition) :
  findCondition catalog selected = Some condition ->
  In condition catalog /\ selected = Some (condition_name condition).
Proof.
  destruct selected as [ name | ]; simpl; [ | discriminate ].
  intros H. apply find_some in H. destruct H as [Hin Heq].
  apply String.eqb_eq in Heq. subst. now split.
Qed.

(** C9: [calculateExposure] returns [null] (it never raises: the function
    is total) when no condition is selected or the selected name is the
    name of no catalog entry; and when it returns an exposure, the selected
    name is the exact name of a catalog entry whose exposure is shown. *)
Theorem C9_no_exposure_without_match (catalog : list LightingCondition)
    (settings : AppSettings) :
  (selectedCondition settings = None
   \/ (forall c, In c catalog ->
         selectedCondition settings <> Some (condition_name c)) ->
   ViewfinderScreen.calculateExposure catalog settings = None)
  /\ (forall shown,
        ViewfinderScreen.calculateExposure catalog settings = Some shown ->
        exists condition,
          In condition catalog
          /\ selectedCondition settings = Some (condition_name condition)
          /\ shown = ViewfinderScreen.formatExposure
                       (ViewfinderScreen.exposureTime settings condition)).
Proof.
  unfold ViewfinderScreen.calculateExposure. split.
  - intros [Hnone | Hnomatch].
    + rewrite Hnone. reflexivity.
    + destruct (negb (truthy (selectedCondition settings))); [ reflexivity | ].
      destruct (findCondition catalog (selectedCondition settings)) as [ c | ] eqn:E;
        [ | reflexivity ].
      apply findCondition_sound in E. destruct E as [Hin Hsel].
      now elim (Hnomatch c Hin).
  - intros shown.
    destruct (negb (truthy (selectedCondition settings))); [ discriminate | ].
    destruct (findCondition catalog (selectedCondition settings)) as [ c | ] eqn:E;
      [ | discriminate ].
    intros [= <-]. apply findCondition_sound in E. destruct E as [Hin Hsel].
    exists c. now repeat split.
Qed.

(** C10: the three drafts of the viewfinder screen agree on the exposure
    computation: [calculateFStop], the pre-format exposure,
    [calculateExposure] and [formatExposure] of
    [ViewfinderScreen.tsx], [part_002] and [part_003] return the same
    result on the same input. *)
Theorem C10_drafts_agree (catalog : list LightingCondition)
    (settings : AppSettings) (condition : LightingCondition) (seconds : R) :
  (ViewfinderScreen.calculateFStop settings = Part002.calculateFStop settings
   /\ Part002.calculateFStop settings = Part003.calculateFStop settings)
  /\ (ViewfinderScreen.formatExposure seconds = Part002.formatExposure seconds
      /\ Part002.formatExposure seconds = Part003.formatExposure seconds)
  /\ (ViewfinderScreen.exposureTime settings condition
      = Part002.exposureTime settings condition
      /\ Part002.exposureTime settings condition
         = Part003.exposureTime settings condition)
  /\ (ViewfinderScreen.calculateExposure catalog settings
      = Part002.calculateExposure catalog settings
      /\ Part002.calculateExposure catalog settings
         = Part003.calculateExposure catalog settings).
Proof.
  repeat split.
Qed.

(** ** The viewfinder geometry *)

(** The three drafts share [getEffectiveDimensions]: the format's sides,
    swapped when the film is held in portrait orientation. *)
Lemma getEffectiveDimensions_spec (settings : AppSettings) :
  ViewfinderScreen.getEffectiveDimensions settings
  = {| width := Spec.effectiveWidth settings;
       height := Spec.effectiveHeight settings |}.
Proof.
  unfold ViewfinderScreen.getEffectiveDimensions,
    Spec.effectiveWidth, Spec.effectiveHeight.
  destruct (filmOrientation settings) as [ [ | ] | ]; reflexivity.
Qed.

Lemma filmAspectRatio_pos (settings : AppSettings) :
  positiveFormat settings -> 0 < Spec.filmAspectRatio settings.
Proof.
  unfold positiveFormat, Spec.filmAspectRatio,
    Spec.effectiveWidth, Spec.effectiveHeight.
  intros [Hw Hh].
  destruct (filmOrientation settings) as [ [ | ] | ];
    apply Rdiv_lt_0_compat; assumption.
Qed.

(** Fitting width first (take the width, derive the height, and clamp the
    height when it is too tall) yields the rectangle of the general,
    height-first algorithm run on the same box. *)
Lemma widthFirst_heightFirst (W H ar : R) :
  0 < ar ->
  Spec.widthFirstViewfinderSize W H ar = Spec.generalViewfinderSize H W ar.
Proof.
  intros Har. unfold Spec.widthFirstViewfinderSize, Spec.generalViewfinderSize.
  cbv zeta.
  assert (Hdiv : W / ar * ar = W) by (field; lra).
  destruct (Rlt_dec H (W / ar)) as [Hclamp | Hfit].
  - replace (JS.gt (W / ar) H) with true by (symmetry; now apply gt_true).
    replace (JS.gt (H * ar) W) with false; [ reflexivity | ].
    symmetry. apply gt_false. nra.
  - replace (JS.gt (W / ar) H) with false by (symmetry; apply gt_false; lra).
    destruct (Rlt_dec W (H * ar)) as [Hover | Hexact].
    + replace (JS.gt (H * ar) W) with true by (symmetry; now apply gt_true).
      reflexivity.
    + replace (JS.gt (H * ar) W) with false by (symmetry; apply gt_false; lra).
      assert (HW : W = H * ar) by nra.
      f_equal; [ exact HW | ]. rewrite HW. field. lra.
Qed.

Ltac unfold_viewfinder :=
  unfold ViewfinderScreen.calculateViewfinderSize,
    Part002.calculateViewfinderSize, Part003.calculateViewfinderSize,
    ViewfinderScreen.isDeviceLandscape, Part003.isLandscape,
    Spec.viewfinderSize, Spec.candidateHeight, Spec.widthBudget;
  change (Part002.getEffectiveDimensions ?s)
    with (ViewfinderScreen.getEffectiveDimensions s);
  change (Part003.getEffectiveDimensions ?s)
    with (ViewfinderScreen.getEffectiveDimensions s);
  rewrite ?getEffectiveDimensions_spec; cbv zeta; simpl width; simpl height;
  fold (Spec.filmAspectRatio).

(** The portrait branches of the three drafts fit width first: the
    candidate width is 95% of the screen width less a margin, the height
    budget a fraction of the screen height. *)
Lemma portrait_branches_width_first (settings : AppSettings) (dimensions : Size) :
  JS.gt (width dimensions) (height dimensions) = false ->
  ViewfinderScreen.calculateViewfinderSize settings dimensions
  = Spec.widthFirstViewfinderSize ((width dimensions - 32) * 0.95)
      (height dimensions * 0.50) (Spec.filmAspectRatio settings)
  /\ Part002.calculateViewfinderSize settings dimensions
     = Spec.widthFirstViewfinderSize ((width dimensions - 48) * 0.95)
         (height dimensions * 0.55) (Spec.filmAspectRatio settings)
  /\ Part003.calculateViewfinderSize settings dimensions
     = Spec.widthFirstViewfinderSize ((width dimensions - 32) * 0.95)
         (height dimensions * 0.50) (Spec.filmAspectRatio settings).
Proof.
  intros Hportrait. repeat split; unfold_viewfinder; rewrite Hportrait; reflexivity.
Qed.

(** C3: in every layout (device landscape and device portrait, in each of
    the three drafts) and for every film format with positive sides,
    [calculateViewfinderSize] returns the rectangle of the general
    algorithm: a candidate height that is a fixed fraction of the vertical
    budget, the candidate width derived from it, and the width clamped to
    the width budget (the height derived again) only when the candidate
    width exceeds it.  The landscape branches are written that way; the
    portrait branches are written width first and return the same
    rectangle. *)
Theorem C3_general_algorithm (settings : AppSettings) (dimensions : Size) :
  positiveFormat settings ->
  ViewfinderScreen.calculateViewfinderSize settings dimensions
  = Spec.viewfinderSize
      (if JS.gt (width dimensions) (height dimensions)
       then Spec.viewfinder_landscape else Spec.viewfinder_portrait)
      settings dimensions
  /\ Part002.calculateViewfinderSize settings dimensions
     = Spec.viewfinderSize
         (if JS.gt (width dimensions) (height dimensions)
          then Spec.part002_landscape else Spec.part002_portrait)
         settings dimensions
  /\ Part003.calculateViewfinderSize settings dimensions
     = Spec.viewfinderSize
         (if JS.gt (width dimensions) (height dimensions)
          then Spec.part003_landscape else Spec.part003_portrait)
         settings dimensions.
Proof.
  intros Hfmt. pose proof (filmAspectRatio_pos settings Hfmt) as Har.
  repeat split; unfold_viewfinder;
    destruct (JS.gt (width dimensions) (height dimensions)); simpl;
    rewrite ?Rminus_0_r.
  - reflexivity.
  - apply (widthFirst_heightFirst _ _ _ Har).
  - reflexivity.
  - apply (widthFirst_heightFirst _ _ _ Har).
  - replace (width dimensions * 0.56 * 0.9)
      with (width dimensions * (0.56 * 0.9)) by ring.
    reflexivity.
  - apply (widthFirst_heightFirst _ _ _ Har).
Qed.

Lemma isDeviceLandscape_true (dimensions : Size) :
  ViewfinderScreen.isDeviceLandscape dimensions = true
  <-> height dimensions < width dimensions.
Proof. apply gt_true. Qed.

(** The orientation toggle swaps the effective sides exactly. *)
Lemma effective_swap (settings : AppSettings) (w h : R) :
  ViewfinderScreen.getEffectiveDimensions (withFilm settings w h (Some portrait))
  = ViewfinderScreen.getEffectiveDimensions (withFilm settings h w (Some landscape))
  /\ ViewfinderScreen.getEffectiveDimensions (withFilm settings w h None)
     = ViewfinderScreen.getEffectiveDimensions (withFilm settings w h (Some landscape)).
Proof. split; reflexivity. Qed.

(** The landscape branch of [ViewfinderScreen.tsx] on a window taller than
    its margin. *)
Lemma viewfinder_landscape_fits (sw sh ar : R) :
  0 < sw -> 20 < sh -> 0 < ar ->
  let r := Spec.generalViewfinderSize ((sh - 20) * 0.92) (sw * 0.58) ar in
  width r / height r = ar /\ width r <= sw * 0.58 /\ height r <= sh - 20.
Proof.
  intros Hsw Hsh Har. unfold Spec.generalViewfinderSize. cbv zeta.
  destruct (JS.gt ((sh - 20) * 0.92 * ar) (sw * 0.58)) eqn:E; simpl.
  - apply gt_true in E. repeat split.
    + field. lra.
    + lra.
    + apply Rle_trans with ((sh - 20) * 0.92); [ | lra ].
      apply Rmult_le_reg_r with ar; [ assumption | ].
      replace (sw * 0.58 / ar * ar) with (sw * 0.58) by (field; lra). lra.
  - apply gt_false in E. repeat split.
    + field. lra.
    + exact E.
    + lra.
Qed.

(** The portrait branch on a window wider than its margin. *)
Lemma viewfinder_portrait_fits (sw sh ar : R) :
  32 < sw -> 0 < sh -> 0 < ar ->
  let r := Spec.generalViewfinderSize (sh * 0.50) ((sw - 32) * 0.95) ar in
  width r / height r = ar /\ width r <= sw - 32 /\ height r <= sh * 0.50.
Proof.
  intros Hsw Hsh Har. unfold Spec.generalViewfinderSize. cbv zeta.
  destruct (JS.gt (sh * 0.50 * ar) ((sw - 32) * 0.95)) eqn:E; simpl.
  - apply gt_true in E. repeat split.
    + field. lra.
    + lra.
    + apply Rmult_le_reg_r with ar; [ assumption | ].
      replace ((sw - 32) * 0.95 / ar * ar) with ((sw - 32) * 0.95) by (field; lra).
      lra.
  - apply gt_false in E. repeat split.
    + field. lra.
    + lra.
    + lra.
Qed.

(** C4, as amended: for a window whose margin-adjusted budget is positive
    (taller than 20 when the device is in landscape, wider than 32
    otherwise) and a film format with positive sides, the rectangle of
    [calculateViewfinderSize] has exactly the effective film aspect ratio
    (the format's sides, swapped exactly when the film orientation is
    portrait, an absent orientation counting as landscape) and neither
    side exceeds the available width and height of the branch taken. *)
Theorem C4_viewfinder_fits (settings : AppSettings) (dimensions : Size) :
  positiveFormat settings ->
  0 < width dimensions ->
  0 < height dimensions ->
  (if ViewfinderScreen.isDeviceLandscape dimensions
   then 20 < height dimensions else 32 < width dimensions) ->
  let r := ViewfinderScreen.calculateViewfinderSize settings dimensions in
  width r / height r = Spec.effectiveWidth settings / Spec.effectiveHeight settings
  /\ width r <= Spec.availableWidth dimensions
  /\ height r <= Spec.availableHeight dimensions
  /\ (forall w h,
        ViewfinderScreen.calculateViewfinderSize
          (withFilm settings w h (Some portrait)) dimensions
        = ViewfinderScreen.calculateViewfinderSize
            (withFilm settings h w (Some landscape)) dimensions
        /\ ViewfinderScreen.calculateViewfinderSize
             (withFilm settings w h None) dimensions
           = ViewfinderScreen.calculateViewfinderSize
               (withFilm settings w h (Some landscape)) dimensions).
Proof.
  intros Hfmt Hsw Hsh Hbudget r.
  pose proof (filmAspectRatio_pos settings Hfmt) as Har.
  assert (Hr : r = Spec.viewfinderSize
                     (if JS.gt (width dimensions) (height dimensions)
                      then Spec.viewfinder_landscape else Spec.viewfinder_portrait)
                     settings dimensions).
  { subst r. unfold_viewfinder.
    destruct (JS.gt (width dimensions) (height dimensions)); simpl;
      rewrite ?Rminus_0_r; [ reflexivity | ].
    apply (widthFirst_heightFirst _ _ _ Har). }
  rewrite Hr. clear Hr r.
  unfold Spec.availableWidth, Spec.availableHeight.
  unfold ViewfinderScreen.isDeviceLandscape in *.
  fold (Spec.filmAspectRatio settings).
  split; [ | split; [ | split ] ].
  4: { intros w h. split; reflexivity. }
  all: destruct (JS.gt (width dimensions) (height dimensions));
    unfold Spec.viewfinderSize, Spec.candidateHeight, Spec.widthBudget; simpl;
    rewrite ?Rminus_0_r.
  all: first
    [ apply (viewfinder_landscape_fits (width dimensions) (height dimensions)
               (Spec.filmAspectRatio settings) Hsw Hbudget Har)
    | apply (viewfinder_portrait_fits (width dimensions) (height dimensions)
               (Spec.filmAspectRatio settings) Hbudget Hsh Har) ].
Qed.

(** On the ten-unit window the landscape branch returns a rectangle with
    negative sides. *)
Lemma tinyLandscape_size :
  ViewfinderScreen.calculateViewfinderSize sampleSettings tinyLandscape
  = {| width := -13.8; height := -9.2 |}.
Proof.
  unfold ViewfinderScreen.calculateViewfinderSize,
    ViewfinderScreen.isDeviceLandscape, ViewfinderScreen.getEffectiveDimensions.
  simpl. decide_cmp. f_equal; lra.
Qed.

(** C4 fails as stated: a window of width 100 and height 10 has positive
    sides, yet the height returned for it, -9.2, exceeds the available
    height of the landscape branch, 10 - 20 = -10. *)
Lemma C4_tiny_window_exceeds_budget :
  positiveFormat sampleSettings
  /\ 0 < width tinyLandscape
  /\ 0 < height tinyLandscape
  /\ Spec.availableHeight tinyLandscape = -10
  /\ height (ViewfinderScreen.calculateViewfinderSize sampleSettings tinyLandscape)
     = -9.2
  /\ ~ (height (ViewfinderScreen.calculateViewfinderSize sampleSettings tinyLandscape)
        <= Spec.availableHeight tinyLandscape).
Proof.
  assert (Ha : Spec.availableHeight tinyLandscape = -10).
  { unfold Spec.availableHeight, ViewfinderScreen.isDeviceLandscape. simpl.
    decide_cmp. lra. }
  rewrite tinyLandscape_size, Ha. unfold positiveFormat. simpl.
  repeat split; lra.
Qed.

(** ** Profile storage *)

Section Profiles.

Import CameraSettingsScreen.

Variable JSON_stringify : list Profile -> string.
Variable JSON_parse : string -> option (list Profile).
Variable settings : AppSettings.

(** A rejected read: [loadProfiles] catches the error, logs it and changes
    nothing else. *)
Lemma loadProfiles_read_fails (w : World) (error : string) :
  fault (storage w) = Some error ->
  loadProfiles JSON_parse w
  = (Returned tt,
     {| profiles := profiles w; profileName := profileName w;
        storage := storage w;
        console := console w ++ [("Error loading profiles:"%string, error)];
        alerts := alerts w; clock := clock w |}).
Proof.
  intros Hfault.
  unfold loadProfiles, try_catch, bind, AsyncStorage_getItem.
  rewrite Hfault. reflexivity.
Qed.

(** A rejected write: [saveProfile] has already put the new profile into
    the component state; the error leaves the function, nothing is logged,
    the name typed in stays and no alert is shown. *)
Lemma saveProfile_write_fails (w : World) (error : string) :
  fault (storage w) = Some error ->
  isEmpty (trim (profileName w)) = false ->
  saveProfile JSON_stringify settings w
  = (Thrown error,
     {| profiles := profiles w ++ [Spec.newProfile settings w]; profileName := profileName w;
        storage := storage w; console := console w;
        alerts := alerts w; clock := clock w |}).
Proof.
  intros Hfault Hname.
  unfold saveProfile, bind, getProfileName, Date_now, getProfiles,
    setProfiles, AsyncStorage_setItem.
  rewrite Hname. simpl. rewrite Hfault. reflexivity.
Qed.

(** [deleteProfile] is written the same way: the state is changed before
    the write is attempted. *)
Lemma deleteProfile_write_fails (w : World) (error id : string) :
  fault (storage w) = Some error ->
  deleteProfile JSON_stringify id w
  = (Thrown error,
     {| profiles := filter (fun p => negb (String.eqb (profile_id p) id)) (profiles w);
        profileName := profileName w;
        storage := storage w; console := console w;
        alerts := alerts w; clock := clock w |}).
Proof.
  intros Hfault.
  unfold deleteProfile, bind, getProfiles, setProfiles, AsyncStorage_setItem.
  simpl. rewrite Hfault. reflexivity.
Qed.

End Profiles.

(** C2 does not hold of [saveProfile], which lacks the error handling its
    sibling [loadProfiles] has (lemma [loadProfiles_read_fails]: the read
    error is caught and logged, the profiles in memory stay as they were).
    [saveProfile] calls [setProfiles] with the extended list before it
    awaits [AsyncStorage.setItem], and nothing catches the rejection.  In a
    world with no profile, the name "Zero" typed in and a store that
    rejects the write, the call ends with the error, the profiles in memory
    have changed from the empty list to the list holding the new profile,
    and nothing is logged. *)
Lemma C2_saveProfile_partial_update :
  CameraSettingsScreen.fault (CameraSettingsScreen.storage brokenWorld)
  = Some "QuotaExceededError"%string
  /\ CameraSettingsScreen.profiles brokenWorld = []
  /\ forall stringify,
       let '(completion, w') :=
         CameraSettingsScreen.saveProfile stringify sampleSettings brokenWorld in
       completion = CameraSettingsScreen.Thrown "QuotaExceededError"
       /\ CameraSettingsScreen.profiles w' = [Spec.newProfile sampleSettings brokenWorld]
       /\ CameraSettingsScreen.profiles w' <> CameraSettingsScreen.profiles brokenWorld
       /\ CameraSettingsScreen.console w' = [].
Proof.
  split; [ reflexivity | split; [ reflexivity | ] ].
  intros stringify.
  rewrite (saveProfile_write_fails stringify sampleSettings brokenWorld
             "QuotaExceededError" eq_refl eq_refl).
  repeat split. simpl. discriminate.
Qed.

(** ** Formatting *)

Lemma Math_round_eq (x : R) (n : Z) :
  IZR n - / 2 <= x < IZR n + / 2 -> JS.Math_round x = n.
Proof.
  intros H. unfold JS.Math_round. apply Zfloor_eq. lra.
Qed.

(** For a non-negative dividend and a positive divisor, [%] is the
    mathematical remainder and lies in [[0, n)]. *)
Lemma rem_nonneg (a n : R) :
  0 <= a -> 0 < n ->
  JS.rem a n = Spec.modulo a n /\ 0 <= JS.rem a n < n.
Proof.
  intros Ha Hn. unfold JS.rem, JS.trunc, Spec.modulo.
  assert (Hq : 0 <= a / n) by (apply Rle_mult_inv_pos; assumption).
  destruct (Rlt_dec (a / n) 0) as [Hneg | _]; [ lra | ].
  split; [ reflexivity | ].
  pose proof (Zfloor_bound (a / n)) as [Hlo Hhi].
  assert (Ha' : a = a / n * n) by (field; lra).
  split.
  - apply Rmult_le_compat_r with (r := n) in Hlo; lra.
  - apply Rmult_lt_compat_r with (r := n) in Hhi; lra.
Qed.

(** The digits of [toFixed(1)] name the tenth nearest to a non-negative
    number. *)
Lemma toFixed1_oneDecimal (x : R) : 0 <= x -> Spec.oneDecimal x (JS.toFixed1 x).
Proof.
  intros Hx. unfold JS.toFixed1, JS.toFixed1_nonneg.
  destruct (Rlt_dec x 0) as [Hneg | _]; [ lra | ].
  set (n := Zfloor (10 * x + / 2)).
  assert (Hn : (0 <= n)%Z) by (apply Zfloor_lub; simpl; lra).
  exists (n / 10)%Z, (n mod 10)%Z.
  split; [ apply Z.div_pos; lia | ].
  split; [ pose proof (Z.mod_pos_bound n 10); lia | ].
  split; [ reflexivity | ].
  pose proof (Zfloor_bound (10 * x + / 2)) as [Hlo Hhi]. fold n in Hlo, Hhi.
  assert (Hsplit : IZR n = 10 * IZR (n / 10) + IZR (n mod 10)).
  { rewrite <- mult_IZR, <- plus_IZR. f_equal. apply Z.div_mod. lia. }
  apply Rabs_le. lra.
Qed.

Ltac eval_floor e v :=
  replace (Zfloor e) with v by (symmetry; apply Zfloor_eq; simpl; lra).

Lemma formatExposure_half : ViewfinderScreen.formatExposure 0.5 = "1/2s"%string.
Proof.
  unfold ViewfinderScreen.formatExposure. decide_cmp.
  replace (JS.Math_round (1 / 0.5)) with 2%Z
    by (symmetry; apply Math_round_eq; lra).
  reflexivity.
Qed.

Lemma formatExposure_2_3 : ViewfinderScreen.formatExposure 2.3 = "2.3s"%string.
Proof.
  unfold ViewfinderScreen.formatExposure. decide_cmp.
  unfold JS.toFixed1, JS.toFixed1_nonneg.
  destruct (Rlt_dec 2.3 0) as [Hneg | _]; [ lra | ].
  eval_floor (10 * 2.3 + / 2) 23%Z.
  reflexivity.
Qed.

Lemma formatExposure_75 : ViewfinderScreen.formatExposure 75 = "1m 15s"%string.
Proof.
  unfold ViewfinderScreen.formatExposure. decide_cmp.
  destruct (rem_nonneg 75 60) as [-> _]; [ lra | lra | ].
  unfold JS.Math_floor, Spec.modulo.
  eval_floor (75 / 60) 1%Z.
  replace (JS.Math_round (75 - 60 * 1)) with 15%Z
    by (symmetry; apply Math_round_eq; lra).
  reflexivity.
Qed.

Lemma formatExposure_120 : ViewfinderScreen.formatExposure 120 = "2m"%string.
Proof.
  unfold ViewfinderScreen.formatExposure. decide_cmp.
  destruct (rem_nonneg 120 60) as [-> _]; [ lra | lra | ].
  unfold JS.Math_floor, Spec.modulo.
  eval_floor (120 / 60) 2%Z.
  replace (JS.Math_round (120 - 60 * 2)) with 0%Z
    by (symmetry; apply Math_round_eq; lra).
  reflexivity.
Qed.

(** C6: for a positive duration, [formatExposure] returns
    ["1/{round(1/seconds)}s"] below one second; the duration with exactly
    one decimal place followed by ["s"] from one second up to a minute;
    and from a minute on ["{floor(seconds/60)}m {round(seconds mod 60)}s"]
    when the rounded remainder is not zero and ["{floor(seconds/60)}m"]
    when it is.  In particular 0.5 gives "1/2s", 2.3 gives "2.3s", 75
    gives "1m 15s" and 120 gives "2m". *)
Theorem C6_formatExposure (seconds : R) :
  0 < seconds ->
  (seconds < 1 ->
     ViewfinderScreen.formatExposure seconds
     = ("1/" ++ JS.toString (JS.Math_round (1 / seconds)) ++ "s")%string)
  /\ (1 <= seconds < 60 ->
        ViewfinderScreen.formatExposure seconds
        = (JS.toFixed1 seconds ++ "s")%string
        /\ Spec.oneDecimal seconds (JS.toFixed1 seconds))
  /\ (60 <= seconds ->
        let minutes := Zfloor (seconds / 60) in
        let rest := JS.Math_round (Spec.modulo seconds 60) in
        (rest <> 0%Z ->
           ViewfinderScreen.formatExposure seconds
           = (JS.toString minutes ++ "m " ++ JS.toString rest ++ "s")%string)
        /\ (rest = 0%Z ->
              ViewfinderScreen.formatExposure seconds
              = (JS.toString minutes ++ "m")%string))
  /\ ViewfinderScreen.formatExposure 0.5 = "1/2s"%string
  /\ ViewfinderScreen.formatExposure 2.3 = "2.3s"%string
  /\ ViewfinderScreen.formatExposure 75 = "1m 15s"%string
  /\ ViewfinderScreen.formatExposure 120 = "2m"%string.
Proof.
  intros Hpos.
  split; [ | split; [ | split ] ].
  - intros Hlt. unfold ViewfinderScreen.formatExposure.
    replace (JS.lt seconds 1) with true by (symmetry; now apply lt_true).
    reflexivity.
  - intros [Hge Hlt]. unfold ViewfinderScreen.formatExposure.
    replace (JS.lt seconds 1) with false by (symmetry; now apply lt_false).
    replace (JS.lt seconds 60) with true by (symmetry; now apply lt_true).
    split; [ reflexivity | apply toFixed1_oneDecimal; lra ].
  - intros Hge minutes rest. unfold ViewfinderScreen.formatExposure.
    replace (JS.lt seconds 1) with false by (symmetry; apply lt_false; lra).
    replace (JS.lt seconds 60) with false by (symmetry; now apply lt_false).
    destruct (rem_nonneg seconds 60) as [Hrem [Hlo _]]; [ lra | lra | ].
    rewrite Hrem in *. fold rest. unfold JS.Math_floor. fold minutes.
    assert (Hrest : (0 <= rest)%Z).
    { unfold rest, JS.Math_round. apply Zfloor_lub. simpl. lra. }
    split; intros H.
    + replace (0 <? rest)%Z with true by (symmetry; apply Z.ltb_lt; lia).
      reflexivity.
    + rewrite H. reflexivity.
  - repeat split.
    + apply formatExposure_half.
    + apply formatExposure_2_3.
    + apply formatExposure_75.
    + apply formatExposure_120.
Qed.

(** ** Reading back what [toFixed] prints *)

Lemma readDigits_stop (rest : string) (acc : Z) (k : nat) :
  Spec.stopsDigits rest -> JS.readDigits rest acc k = (acc, k, rest).
Proof.
  destruct rest as [ | c rest ]; simpl; [ reflexivity | ].
  intros ->. reflexivity.
Qed.

(** Reading the digits of [u] in front of a stop yields their value. *)
Lemma readDigits_uint (u : Decimal.uint) (rest : string) :
  Spec.stopsDigits rest ->
  forall (acc : Z) (k : nat),
    JS.readDigits (NilEmpty.string_of_uint u ++ rest) acc k
    = (Spec.digitsValue u acc, (k + Decimal.nb_digits u)%nat, rest).
Proof.
  intros Hstop.
  induction u as [ | u IH | u IH | u IH | u IH | u IH | u IH | u IH | u IH | u IH | u IH ];
    intros acc k; simpl;
    try (rewrite IH; f_equal; f_equal; lia).
  rewrite (readDigits_stop rest acc k Hstop). f_equal. f_equal. lia.
Qed.

Lemma digitsValue_pos (u : Decimal.uint) (p : positive) :
  Spec.digitsValue u (Z.pos p) = Z.pos (Pos.of_uint_acc u p).
Proof.
  revert p.
  induction u as [ | u IH | u IH | u IH | u IH | u IH | u IH | u IH | u IH | u IH | u IH ];
    intros p; cbn [Spec.digitsValue Pos.of_uint_acc]; [ reflexivity | .. ];
    match goal with
    | |- Spec.digitsValue _ ?a = Z.pos (Pos.of_uint_acc _ ?b) =>
        replace a with (Z.pos b) by lia; apply IH
    end.
Qed.

Lemma digitsValue_0 (u : Decimal.uint) :
  Spec.digitsValue u 0 = Z.of_N (Pos.of_uint u).
Proof.
  induction u as [ | u IH | u IH | u IH | u IH | u IH | u IH | u IH | u IH | u IH | u IH ];
    simpl; [ reflexivity | exact IH | .. ];
    apply (digitsValue_pos u).
Qed.

(** The digits printed for a non-negative integer read back as that
    integer. *)
Lemma readDigits_toString (q : Z) (rest : string) :
  (0 <= q)%Z -> Spec.stopsDigits rest ->
  exists k, JS.readDigits (JS.toString q ++ rest) 0 0 = (q, k, rest).
Proof.
  intros Hq Hstop. unfold JS.toString.
  destruct q as [ | p | p ]; [ | | lia ].
  - exists 1%nat. simpl. rewrite (readDigits_stop rest _ _ Hstop). reflexivity.
  - simpl. unfold NilZero.string_of_uint.
    pose proof (DecimalPos.Unsigned.to_uint_nonnil p) as Hnil.
    pose proof (DecimalPos.Unsigned.of_to p) as Hp.
    destruct (Pos.to_uint p) eqn:E; [ now elim Hnil | .. ];
      rewrite <- E in *; rewrite (readDigits_uint _ rest Hstop);
      rewrite digitsValue_0, Hp; eexists; reflexivity.
Qed.

(** It starts with a digit, not with a sign. *)
Lemma toString_head (q : Z) (rest : string) :
  (0 <= q)%Z ->
  exists c s, (JS.toString q ++ rest)%string = String c s /\ Ascii.eqb c "-" = false.
Proof.
  intros Hq. unfold JS.toString.
  destruct q as [ | p | p ]; [ | | lia ].
  - exists "0"%char, rest. split; reflexivity.
  - simpl. unfold NilZero.string_of_uint.
    pose proof (DecimalPos.Unsigned.to_uint_nonnil p) as Hnil.
    destruct (Pos.to_uint p); [ now elim Hnil | .. ];
      simpl; eexists; eexists; split; reflexivity.
Qed.

(** A single decimal digit is printed as one character and reads back. *)
Lemma readDigits_digit (d : Z) :
  (0 <= d <= 9)%Z -> JS.readDigits (JS.toString d) 0 0 = (d, 1%nat, EmptyString).
Proof.
  intros Hd.
  assert (H : (d = 0 \/ d = 1 \/ d = 2 \/ d = 3 \/ d = 4 \/ d = 5 \/ d = 6
               \/ d = 7 \/ d = 8 \/ d = 9)%Z) by lia.
  repeat (destruct H as [-> | H]; [ reflexivity | ]). subst. reflexivity.
Qed.

(** The unsigned rendering of a non-negative number reads back as that
    number rounded to the nearest tenth, a tie going up. *)
Lemma parseUnsigned_toFixed1 (x : R) :
  0 <= x ->
  JS.parseUnsigned (JS.toFixed1_nonneg x) = Some (IZR (Zfloor (10 * x + / 2)) / 10)
  /\ exists c s, JS.toFixed1_nonneg x = String c s /\ Ascii.eqb c "-" = false.
Proof.
  intros Hx. unfold JS.toFixed1_nonneg.
  set (n := Zfloor (10 * x + / 2)).
  assert (Hn : (0 <= n)%Z) by (apply Zfloor_lub; simpl; lra).
  assert (Hq : (0 <= n / 10)%Z) by (apply Z.div_pos; lia).
  assert (Hd : (0 <= n mod 10 <= 9)%Z) by (pose proof (Z.mod_pos_bound n 10); lia).
  cbv zeta.
  set (tail := ("." ++ JS.toString (n mod 10))%string).
  split; [ | exact (toString_head (n / 10) tail Hq) ].
  unfold JS.parseUnsigned.
  destruct (readDigits_toString (n / 10) tail Hq) as [k ->]; [ reflexivity | ].
  unfold tail. simpl append. cbv beta iota.
  rewrite (readDigits_digit _ Hd).
  assert (Hsplit : IZR n = 10 * IZR (n / 10) + IZR (n mod 10)).
  { rewrite <- mult_IZR, <- plus_IZR. f_equal. apply Z.div_mod. lia. }
  destruct k; rewrite Hsplit; f_equal; simpl; field.
Qed.

(** [parseFloat] of the [toFixed(1)] rendering of a number is that number
    rounded to the nearest tenth: a literal is always read, for a negative
    number the sign and the rounded magnitude. *)
Lemma parseFloat_toFixed1 (x : R) :
  JS.parseFloat (JS.toFixed1 x)
  = if Rlt_dec x 0
    then - (IZR (Zfloor (10 * - x + / 2)) / 10)
    else IZR (Zfloor (10 * x + / 2)) / 10.
Proof.
  unfold JS.toFixed1.
  destruct (Rlt_dec x 0) as [Hneg | Hpos].
  - destruct (parseUnsigned_toFixed1 (- x)) as [Hparse _]; [ lra | ].
    simpl. rewrite Hparse. reflexivity.
  - destruct (parseUnsigned_toFixed1 x) as [Hparse (c & s & Hs & Hc)]; [ lra | ].
    unfold JS.parseFloat. rewrite Hs, Hc, <- Hs, Hparse. reflexivity.
Qed.

(** The f-stop that enters the exposure is the quotient of focal length
    and pinhole size to one decimal place: it is a whole number of tenths
    and lies within a twentieth of the quotient. *)
Lemma actualFStop_one_decimal (settings : AppSettings) :
  0 < focalLength settings -> 0 < pinholeSize settings ->
  exists n : Z,
    JS.parseFloat (ViewfinderScreen.calculateFStop settings) = IZR n / 10
    /\ Rabs (focalLength settings / pinholeSize settings - IZR n / 10) <= / 20.
Proof.
  intros Hf Hp. unfold ViewfinderScreen.calculateFStop.
  assert (Hx : 0 < focalLength settings / pinholeSize settings)
    by (apply Rdiv_lt_0_compat; assumption).
  exists (Zfloor (10 * (focalLength settings / pinholeSize settings) + / 2)).
  split.
  { rewrite parseFloat_toFixed1.
    destruct (Rlt_dec (focalLength settings / pinholeSize settings) 0); [ lra | ].
    reflexivity. }
  pose proof (Zfloor_bound (10 * (focalLength settings / pinholeSize settings) + / 2))
    as [Hlo Hhi].
  apply Rabs_le. lra.
Qed.

(** ** The theorems at the sample inputs *)

(** The sample camera is at f/16.0. *)
Lemma sample_fStop : ViewfinderScreen.calculateFStop sampleSettings = "16.0"%string.
Proof.
  unfold ViewfinderScreen.calculateFStop, JS.toFixed1, JS.toFixed1_nonneg. simpl.
  destruct (Rlt_dec (16 / 1) 0) as [Hneg | _]; [ lra | ].
  eval_floor (10 * (16 / 1) + / 2) 160%Z.
  reflexivity.
Qed.

(** Its exposure under bright sun is one second, two seconds with one
    bracket stop more. *)
Lemma sample_exposure :
  ViewfinderScreen.exposureTime sampleSettings brightSun = 1
  /\ ViewfinderScreen.exposureTime (withBracketStops sampleSettings 1) brightSun = 2.
Proof.
  assert (Hf : JS.parseFloat (JS.toFixed1 (16 / 1)) = 16).
  { change (JS.toFixed1 (16 / 1)) with (ViewfinderScreen.calculateFStop sampleSettings).
    rewrite sample_fStop. unfold JS.parseFloat, JS.parseUnsigned. simpl. lra. }
  rewrite !exposureTime_steps. unfold Spec.exposureSteps. simpl.
  rewrite Hf.
  replace (1 / 1 * (16 / 16 * (16 / 16 * 1))) with 1 by (field; lra).
  replace (JS.gt 1 1) with false by (symmetry; apply gt_false; lra).
  rewrite Rpower_O, Rpower_1 by lra. lra.
Qed.

Lemma C1_witness :
  ViewfinderScreen.exposureTime sampleSettings brightSun
  = Spec.exposureSteps 16 1 1 16 true false 0
  /\ ViewfinderScreen.calculateExposure sampleConditions sampleSettings
     = Some (ViewfinderScreen.formatExposure
               (Spec.exposureSteps 16 1 1 16 true false 0)).
Proof.
  apply (C1_exposure_steps sampleConditions sampleSettings "Bright Sun" brightSun).
  - simpl. lra.
  - simpl. lra.
  - simpl. lra.
  - reflexivity.
  - discriminate.
  - reflexivity.
Defined.

Lemma C3_witness :
  ViewfinderScreen.calculateViewfinderSize sampleSettings phonePortrait
  = Spec.viewfinderSize
      (if JS.gt (width phonePortrait) (height phonePortrait)
       then Spec.viewfinder_landscape else Spec.viewfinder_portrait)
      sampleSettings phonePortrait.
Proof.
  apply (C3_general_algorithm sampleSettings phonePortrait).
  unfold positiveFormat. simpl. lra.
Defined.

Lemma C4_witness :
  width (ViewfinderScreen.calculateViewfinderSize sampleSettings phoneLandscape)
  / height (ViewfinderScreen.calculateViewfinderSize sampleSettings phoneLandscape)
  = Spec.effectiveWidth sampleSettings / Spec.effectiveHeight sampleSettings.
Proof.
  apply (C4_viewfinder_fits sampleSettings phoneLandscape).
  - unfold positiveFormat. simpl. lra.
  - simpl. lra.
  - simpl. lra.
  - unfold ViewfinderScreen.isDeviceLandscape, JS.gt. simpl.
    destruct (Rlt_dec 400 800); lra.
Defined.

Lemma C5_witness :
  ViewfinderScreen.calculateExposure sampleConditions sampleSettings
  = ViewfinderScreen.calculateExposure sampleConditions
      (withReciprocityFailure sampleSettings false).
Proof.
  apply (C5_reciprocity_threshold sampleConditions sampleSettings
           "Bright Sun" brightSun eq_refl).
  - discriminate.
  - reflexivity.
  - reflexivity.
  - unfold Spec.baseExposureTime.
    change (JS.toFixed1 (focalLength sampleSettings / pinholeSize sampleSettings))
      with (ViewfinderScreen.calculateFStop sampleSettings).
    rewrite sample_fStop. unfold JS.parseFloat, JS.parseUnsigned. simpl. lra.
Defined.

Lemma C6_witness : ViewfinderScreen.formatExposure 75 = "1m 15s"%string.
Proof.
  apply (C6_formatExposure 75). lra.
Defined.

Lemma C7_witness :
  ViewfinderScreen.exposureTime
    (withBracketStops sampleSettings (bracketStops sampleSettings + 1)) brightSun
  = 2 * ViewfinderScreen.exposureTime sampleSettings brightSun.
Proof.
  apply (C7_bracket_doubles sampleConditions sampleSettings "Bright Sun" brightSun).
  - reflexivity.
  - discriminate.
  - reflexivity.
Defined.

Lemma C8_witness :
  ViewfinderScreen.exposureTime (withRedFilter sampleSettings true) brightSun
  = 8 * ViewfinderScreen.exposureTime (withRedFilter sampleSettings false) brightSun.
Proof.
  apply (C8_red_filter_factor sampleConditions sampleSettings "Bright Sun" brightSun).
  - reflexivity.
  - discriminate.
  - reflexivity.
Defined.

Lemma C9_witness :
  ViewfinderScreen.calculateExposure sampleConditions moonlightSettings = None.
Proof.
  apply (C9_no_exposure_without_match sampleConditions).
  right. simpl. intros c [<- | [<- | []]]; discriminate.
Defined.

(** * Further properties of the screens *)

(** ** The viewfinder rectangle in the three drafts *)

(** Each draft computes the rectangle of the general algorithm with the
    constants of its layout. *)
Lemma drafts_follow_layout (settings : AppSettings) (dimensions : Size) :
  positiveFormat settings ->
  ViewfinderScreen.calculateViewfinderSize settings dimensions
  = Spec.viewfinderSize (Spec.viewfinderLayout dimensions) settings dimensions
  /\ Part002.calculateViewfinderSize settings dimensions
     = Spec.viewfinderSize (Spec.part002Layout dimensions) settings dimensions
  /\ Part003.calculateViewfinderSize settings dimensions
     = Spec.viewfinderSize (Spec.part003Layout dimensions) settings dimensions.
Proof.
  intros Hfmt. pose proof (filmAspectRatio_pos settings Hfmt) as Har.
  unfold Spec.viewfinderLayout, Spec.part002Layout, Spec.part003Layout.
  repeat split; unfold_viewfinder;
    destruct (JS.gt (width dimensions) (height dimensions)); simpl;
    rewrite ?Rminus_0_r;
    try reflexivity; try apply (widthFirst_heightFirst _ _ _ Har).
  replace (width dimensions * 0.56 * 0.9)
    with (width dimensions * (0.56 * 0.9)) by ring.
  reflexivity.
Qed.

(** The general algorithm on a box with positive sides: its rectangle lies
    in the box with the asked aspect ratio and touches one side of it. *)
Lemma general_fitsBox (H W ar : R) :
  0 < H -> 0 < W -> 0 < ar ->
  let r := Spec.generalViewfinderSize H W ar in
  Spec.fitsBox ar W H r /\ 0 < width r /\ (width r = W \/ height r = H).
Proof.
  intros HH HW Har. unfold Spec.generalViewfinderSize, Spec.fitsBox. cbv zeta.
  assert (Hdiv : W / ar * ar = W) by (field; lra).
  assert (Hpos : 0 < W / ar) by (apply Rdiv_lt_0_compat; assumption).
  destruct (JS.gt (H * ar) W) eqn:E; simpl.
  - apply gt_true in E.
    assert (Hle : W / ar <= H).
    { apply Rmult_le_reg_r with ar; [ assumption | ]. lra. }
    split; [ | split; [ lra | now left ] ].
    repeat split; lra.
  - apply gt_false in E.
    split; [ | split; [ nra | now right ] ].
    repeat split; lra.
Qed.

(** No rectangle of the same aspect ratio that lies in the box is larger. *)
Lemma general_maximal (H W ar : R) (other : Size) :
  0 < ar ->
  Spec.fitsBox ar W H other ->
  let r := Spec.generalViewfinderSize H W ar in
  width other <= width r /\ height other <= height r.
Proof.
  intros Har (Hh & Hw & HW & HH).
  unfold Spec.generalViewfinderSize. cbv zeta.
  assert (Hdiv : W / ar * ar = W) by (field; lra).
  destruct (JS.gt (H * ar) W) eqn:E; simpl.
  - split; [ lra | ]. apply Rmult_le_reg_r with ar; [ assumption | ]. lra.
  - split; [ | lra ]. rewrite Hw. apply Rmult_le_compat_r; lra.
Qed.

Lemma leavesRoom_box (l : Spec.Layout) (dimensions : Size) :
  0 < Spec.heightFraction l -> 0 < Spec.widthFraction l ->
  Spec.leavesRoom l dimensions ->
  0 < Spec.candidateHeight l dimensions /\ 0 < Spec.widthBudget l dimensions.
Proof.
  unfold Spec.leavesRoom, Spec.candidateHeight, Spec.widthBudget.
  intros Hh Hw [H1 H2]. split; apply Rmult_lt_0_compat; lra.
Qed.

Lemma layout_fractions_pos (dimensions : Size) :
  (0 < Spec.heightFraction (Spec.viewfinderLayout dimensions)
   /\ 0 < Spec.widthFraction (Spec.viewfinderLayout dimensions))
  /\ (0 < Spec.heightFraction (Spec.part002Layout dimensions)
      /\ 0 < Spec.widthFraction (Spec.part002Layout dimensions))
  /\ (0 < Spec.heightFraction (Spec.part003Layout dimensions)
      /\ 0 < Spec.widthFraction (Spec.part003Layout dimensions)).
Proof.
  unfold Spec.viewfinderLayout, Spec.part002Layout, Spec.part003Layout.
  destruct (JS.gt (width dimensions) (height dimensions)); simpl;
    repeat split; lra.
Qed.

(** In [part_002] and [part_003], on a window that exceeds the margins of
    the layout, the viewfinder has positive sides, exactly the effective
    film aspect ratio, a height of at most the candidate height and a
    width of at most the width limit of the branch taken. *)
Theorem other_drafts_fit (settings : AppSettings) (dimensions : Size) :
  positiveFormat settings ->
  (Spec.leavesRoom (Spec.part002Layout dimensions) dimensions ->
   let r := Part002.calculateViewfinderSize settings dimensions in
   0 < width r <= Spec.widthBudget (Spec.part002Layout dimensions) dimensions
   /\ 0 < height r <= Spec.candidateHeight (Spec.part002Layout dimensions) dimensions
   /\ width r / height r = Spec.filmAspectRatio settings)
  /\ (Spec.leavesRoom (Spec.part003Layout dimensions) dimensions ->
      let r := Part003.calculateViewfinderSize settings dimensions in
      0 < width r <= Spec.widthBudget (Spec.part003Layout dimensions) dimensions
      /\ 0 < height r <= Spec.candidateHeight (Spec.part003Layout dimensions) dimensions
      /\ width r / height r = Spec.filmAspectRatio settings).
Proof.
  intros Hfmt. pose proof (filmAspectRatio_pos settings Hfmt) as Har.
  destruct (drafts_follow_layout settings dimensions Hfmt) as (_ & H2 & H3).
  destruct (layout_fractions_pos dimensions) as (_ & [F2h F2w] & [F3h F3w]).
  split; intros Hroom r; subst r.
  - rewrite H2.
    destruct (leavesRoom_box _ _ F2h F2w Hroom) as [HH HW].
    destruct (general_fitsBox _ _ _ HH HW Har) as ((Hh & Hw & HleW & HleH) & Hwpos & _).
    fold (Spec.viewfinderSize (Spec.part002Layout dimensions) settings dimensions)
      in Hh, Hw, HleW, HleH, Hwpos.
    repeat split; try assumption. rewrite Hw. field. lra.
  - rewrite H3.
    destruct (leavesRoom_box _ _ F3h F3w Hroom) as [HH HW].
    destruct (general_fitsBox _ _ _ HH HW Har) as ((Hh & Hw & HleW & HleH) & Hwpos & _).
    fold (Spec.viewfinderSize (Spec.part003Layout dimensions) settings dimensions)
      in Hh, Hw, HleW, HleH, Hwpos.
    repeat split; try assumption. rewrite Hw. field. lra.
Qed.

(** In each draft the viewfinder is the largest rectangle of the film's
    aspect ratio within the box of its layout: any rectangle with positive
    height, that aspect ratio, a width within the width limit and a height
    within the candidate height is at most as wide and at most as tall. *)
Theorem viewfinder_is_largest (settings : AppSettings) (dimensions other : Size) :
  positiveFormat settings ->
  (Spec.fitsBox (Spec.filmAspectRatio settings)
     (Spec.widthBudget (Spec.viewfinderLayout dimensions) dimensions)
     (Spec.candidateHeight (Spec.viewfinderLayout dimensions) dimensions) other ->
   width other <= width (ViewfinderScreen.calculateViewfinderSize settings dimensions)
   /\ height other <= height (ViewfinderScreen.calculateViewfinderSize settings dimensions))
  /\ (Spec.fitsBox (Spec.filmAspectRatio settings)
        (Spec.widthBudget (Spec.part002Layout dimensions) dimensions)
        (Spec.candidateHeight (Spec.part002Layout dimensions) dimensions) other ->
      width other <= width (Part002.calculateViewfinderSize settings dimensions)
      /\ height other <= height (Part002.calculateViewfinderSize settings dimensions))
  /\ (Spec.fitsBox (Spec.filmAspectRatio settings)
        (Spec.widthBudget (Spec.part003Layout dimensions) dimensions)
        (Spec.candidateHeight (Spec.part003Layout dimensions) dimensions) other ->
      width other <= width (Part003.calculateViewfinderSize settings dimensions)
      /\ height other <= height (Part003.calculateViewfinderSize settings dimensions)).
Proof.
  intros Hfmt. pose proof (filmAspectRatio_pos settings Hfmt) as Har.
  destruct (drafts_follow_layout settings dimensions Hfmt) as (-> & -> & ->).
  split; [ | split ]; intros Hfit;
    apply (general_maximal _ _ _ other Har Hfit).
Qed.

(** The general algorithm on a box one side of which is not positive
    returns a rectangle without a positive side. *)
Lemma general_degenerate (H W ar : R) :
  0 < ar ->
  (H <= 0 /\ 0 < W) \/ (W <= 0 /\ 0 < H) ->
  let r := Spec.generalViewfinderSize H W ar in
  width r <= 0 /\ height r <= 0.
Proof.
  intros Har Hbox. unfold Spec.generalViewfinderSize. cbv zeta.
  destruct Hbox as [[HH HW] | [HW HH]].
  - replace (JS.gt (H * ar) W) with false by (symmetry; apply gt_false; nra).
    simpl. split; nra.
  - replace (JS.gt (H * ar) W) with true by (symmetry; apply gt_true; nra).
    simpl. split; [ assumption | ].
    apply Rmult_le_reg_r with ar; [ assumption | ].
    replace (W / ar * ar) with W by (field; lra). lra.
Qed.

Lemma no_room_box (l : Spec.Layout) (dimensions : Size) :
  0 < width dimensions -> 0 < height dimensions ->
  0 < Spec.heightFraction l -> 0 < Spec.widthFraction l ->
  (Spec.heightMargin l = 0 \/ Spec.widthMargin l = 0) ->
  ~ Spec.leavesRoom l dimensions ->
  (Spec.candidateHeight l dimensions <= 0 /\ 0 < Spec.widthBudget l dimensions)
  \/ (Spec.widthBudget l dimensions <= 0 /\ 0 < Spec.candidateHeight l dimensions).
Proof.
  unfold Spec.leavesRoom, Spec.candidateHeight, Spec.widthBudget.
  intros Hw Hh Fh Fw Hmargin Hno.
  destruct Hmargin as [E | E]; rewrite E in *.
  - right. assert (width dimensions <= Spec.widthMargin l) by lra.
    split; [ nra | apply Rmult_lt_0_compat; lra ].
  - left. assert (height dimensions <= Spec.heightMargin l) by lra.
    split; [ nra | apply Rmult_lt_0_compat; lra ].
Qed.

Lemma layout_one_margin (dimensions : Size) :
  (Spec.heightMargin (Spec.viewfinderLayout dimensions) = 0
   \/ Spec.widthMargin (Spec.viewfinderLayout dimensions) = 0)
  /\ (Spec.heightMargin (Spec.part002Layout dimensions) = 0
      \/ Spec.widthMargin (Spec.part002Layout dimensions) = 0)
  /\ (Spec.heightMargin (Spec.part003Layout dimensions) = 0
      \/ Spec.widthMargin (Spec.part003Layout dimensions) = 0).
Proof.
  unfold Spec.viewfinderLayout, Spec.part002Layout, Spec.part003Layout.
  destruct (JS.gt (width dimensions) (height dimensions)); simpl;
    repeat split; (now left) || (now right).
Qed.

(** On a window with positive sides that does not exceed the margin of the
    layout (in device landscape a height of at most 20, 200 or 80; in
    device portrait a width of at most 32, 48 or 32), no draft guards the
    subtraction: the viewfinder returned has no positive side. *)
Theorem viewfinder_without_room (settings : AppSettings) (dimensions : Size) :
  positiveFormat settings ->
  0 < width dimensions -> 0 < height dimensions ->
  (~ Spec.leavesRoom (Spec.viewfinderLayout dimensions) dimensions ->
   width (ViewfinderScreen.calculateViewfinderSize settings dimensions) <= 0
   /\ height (ViewfinderScreen.calculateViewfinderSize settings dimensions) <= 0)
  /\ (~ Spec.leavesRoom (Spec.part002Layout dimensions) dimensions ->
      width (Part002.calculateViewfinderSize settings dimensions) <= 0
      /\ height (Part002.calculateViewfinderSize settings dimensions) <= 0)
  /\ (~ Spec.leavesRoom (Spec.part003Layout dimensions) dimensions ->
      width (Part003.calculateViewfinderSize settings dimensions) <= 0
      /\ height (Part003.calculateViewfinderSize settings dimensions) <= 0).
Proof.
  intros Hfmt Hw Hh. pose proof (filmAspectRatio_pos settings Hfmt) as Har.
  destruct (drafts_follow_layout settings dimensions Hfmt) as (-> & -> & ->).
  destruct (layout_fractions_pos dimensions) as ([F1h F1w] & [F2h F2w] & [F3h F3w]).
  destruct (layout_one_margin dimensions) as (M1 & M2 & M3).
  split; [ | split ]; intros Hno.
  all: first
    [ apply (general_degenerate _ _ _ Har
               (no_room_box _ dimensions Hw Hh F1h F1w M1 Hno))
    | apply (general_degenerate _ _ _ Har
               (no_room_box _ dimensions Hw Hh F2h F2w M2 Hno))
    | apply (general_degenerate _ _ _ Har
               (no_room_box _ dimensions Hw Hh F3h F3w M3 Hno)) ].
Qed.

(** The rectangle depends on the film only through its aspect ratio. *)
Lemma viewfinder_by_aspect_ratio (s1 s2 : AppSettings) (dimensions : Size) :
  Spec.filmAspectRatio s1 = Spec.filmAspectRatio s2 ->
  ViewfinderScreen.calculateViewfinderSize s1 dimensions
  = ViewfinderScreen.calculateViewfinderSize s2 dimensions
  /\ Part002.calculateViewfinderSize s1 dimensions
     = Part002.calculateViewfinderSize s2 dimensions
  /\ Part003.calculateViewfinderSize s1 dimensions
     = Part003.calculateViewfinderSize s2 dimensions.
Proof.
  unfold Spec.filmAspectRatio. intros E.
  repeat split; unfold_viewfinder; rewrite E; reflexivity.
Qed.

(** Enlarging or shrinking the film frame by a factor leaves the viewfinder
    as it is in all three drafts: a 60 by 90 frame is framed like a 6 by 9
    frame. *)
Theorem viewfinder_scale_invariant (settings : AppSettings) (dimensions : Size)
    (k w h : R) (o : option FilmOrientation) :
  k <> 0 -> w <> 0 -> h <> 0 ->
  ViewfinderScreen.calculateViewfinderSize (withFilm settings (k * w) (k * h) o) dimensions
  = ViewfinderScreen.calculateViewfinderSize (withFilm settings w h o) dimensions
  /\ Part002.calculateViewfinderSize (withFilm settings (k * w) (k * h) o) dimensions
     = Part002.calculateViewfinderSize (withFilm settings w h o) dimensions
  /\ Part003.calculateViewfinderSize (withFilm settings (k * w) (k * h) o) dimensions
     = Part003.calculateViewfinderSize (withFilm settings w h o) dimensions.
Proof.
  intros Hk Hw Hh. apply viewfinder_by_aspect_ratio.
  unfold Spec.filmAspectRatio, Spec.effectiveWidth, Spec.effectiveHeight. simpl.
  destruct o as [ [ | ] | ]; field; auto.
Qed.

(** ** The handlers of the viewfinder screen *)

(** Toggling the film orientation swaps the effective sides of the film
    and touches nothing the exposure reads; toggling twice gives the
    settings back when an orientation was set, and in any case a record
    that is framed alike (an absent orientation counts as landscape). *)
Theorem toggleOrientation_swaps (catalog : list LightingCondition)
    (settings : AppSettings) (dimensions : Size) (condition : LightingCondition) :
  let toggled := ViewfinderScreen.toggleOrientation settings in
  let twice := ViewfinderScreen.toggleOrientation toggled in
  ViewfinderScreen.getEffectiveDimensions toggled
  = {| width := height (ViewfinderScreen.getEffectiveDimensions settings);
       height := width (ViewfinderScreen.getEffectiveDimensions settings) |}
  /\ ViewfinderScreen.calculateViewfinderSize twice dimensions
     = ViewfinderScreen.calculateViewfinderSize settings dimensions
  /\ (filmOrientation settings <> None -> twice = settings)
  /\ ViewfinderScreen.exposureTime toggled condition
     = ViewfinderScreen.exposureTime settings condition
  /\ ViewfinderScreen.calculateExposure catalog toggled
     = ViewfinderScreen.calculateExposure catalog settings
  /\ ViewfinderScreen.calculateFStop toggled
     = ViewfinderScreen.calculateFStop settings.
Proof.
  intros toggled twice. subst toggled twice.
  destruct settings as [f p fmt [ [ | ] | ] i sel b rf red];
    repeat split; try reflexivity; intros H; now elim H.
Qed.

Lemma Rpower_2_3 : Rpower 2 3 = 8.
Proof.
  replace 3 with (INR 3) by (simpl; lra).
  rewrite Rpower_pow by lra. simpl. lra.
Qed.

(** The bracket slider scales the exposure by a power of two: at [v]
    stops the pre-format exposure is [2 ^ v] times the one at 0 stops, so
    the ends of the slider, -3 and 3, give an eighth and eight times the
    unbracketed exposure; and a positive exposure grows strictly with the
    stops. *)
Theorem handleBracketChange_scales (settings : AppSettings)
    (condition : LightingCondition) :
  let at_ v :=
    ViewfinderScreen.exposureTime
      (ViewfinderScreen.handleBracketChange settings v) condition in
  (forall v, at_ v = Rpower 2 v * at_ 0)
  /\ at_ 3 = 8 * at_ 0
  /\ at_ (-3) = at_ 0 / 8
  /\ (forall a b, 0 < at_ 0 -> a < b -> at_ a < at_ b).
Proof.
  intros at_.
  assert (Hlaw : forall v, at_ v = Rpower 2 v * at_ 0).
  { intros v. unfold at_. rewrite !exposureTime_steps.
    unfold Spec.exposureSteps. simpl. rewrite (Rpower_O 2) by lra. ring. }
  split; [ exact Hlaw | ]. split; [ | split ].
  - rewrite (Hlaw 3), Rpower_2_3. reflexivity.
  - rewrite (Hlaw (-3)).
    replace (-3) with (Ropp 3) by lra.
    rewrite Rpower_Ropp, Rpower_2_3. field.
  - intros a b Hpos Hab. rewrite (Hlaw a), (Hlaw b).
    apply Rmult_lt_compat_r; [ assumption | ].
    apply Rpower_lt; lra.
Qed.

(** ** More on the exposure *)

Lemma afterCorrection_le (settings : AppSettings) (x y : R) :
  x <= y -> Spec.afterCorrection settings x <= Spec.afterCorrection settings y.
Proof.
  intros Hxy. unfold Spec.afterCorrection.
  pose proof (Rpower_2_pos (bracketStops settings)) as Hp.
  apply Rmult_le_compat_r; [ lra | ].
  destruct (useRedFilter settings); lra.
Qed.

Lemma afterCorrection_pos (settings : AppSettings) (x : R) :
  0 < x -> 0 < Spec.afterCorrection settings x.
Proof.
  intros Hx. unfold Spec.afterCorrection.
  pose proof (Rpower_2_pos (bracketStops settings)) as Hp.
  apply Rmult_lt_0_compat; [ | assumption ].
  destruct (useRedFilter settings); lra.
Qed.

(** The reciprocity correction never shortens an exposure: with the flag
    set the pre-format exposure is at least the one with the flag cleared,
    whatever the other settings are. *)
Theorem reciprocity_never_shortens (settings : AppSettings)
    (condition : LightingCondition) :
  ViewfinderScreen.exposureTime (withReciprocityFailure settings false) condition
  <= ViewfinderScreen.exposureTime (withReciprocityFailure settings true) condition.
Proof.
  rewrite !exposureTime_afterCorrection. simpl.
  change (Spec.baseExposureTime (withReciprocityFailure settings false) condition)
    with (Spec.baseExposureTime settings condition).
  change (Spec.baseExposureTime (withReciprocityFailure settings true) condition)
    with (Spec.baseExposureTime settings condition).
  change (Spec.afterCorrection (withReciprocityFailure settings false))
    with (Spec.afterCorrection settings).
  change (Spec.afterCorrection (withReciprocityFailure settings true))
    with (Spec.afterCorrection settings).
  apply afterCorrection_le.
  destruct (JS.gt (Spec.baseExposureTime settings condition) 1) eqn:E; [ | lra ].
  apply gt_true in E. pose proof (Rpower_1_3_gt _ E). lra.
Qed.

(** Without the reciprocity correction the exposure is inversely
    proportional to the film speed: a film [k] times as fast needs a
    [k]-th of the exposure. *)
Theorem exposure_inverse_to_iso (settings : AppSettings)
    (condition : LightingCondition) (k : R) :
  useReciprocityFailure settings = false ->
  k <> 0 -> iso settings <> 0 ->
  ViewfinderScreen.exposureTime (withIso settings (k * iso settings)) condition
  = ViewfinderScreen.exposureTime settings condition / k.
Proof.
  intros Hflag Hk Hiso. rewrite !exposureTime_steps.
  unfold Spec.exposureSteps. simpl. rewrite Hflag. simpl.
  set (q := JS.parseFloat _ / fStop condition).
  destruct (useRedFilter settings); field; auto.
Qed.

(** The f-stop read back from the rendering of a quotient of at least a
    twentieth is positive. *)
Lemma actualFStop_pos (x : R) :
  / 20 <= x -> 0 < JS.parseFloat (JS.toFixed1 x).
Proof.
  intros Hx. rewrite parseFloat_toFixed1.
  destruct (Rlt_dec x 0) as [Hneg | _]; [ lra | ].
  assert (Hn : (1 <= Zfloor (10 * x + / 2))%Z) by (apply Zfloor_lub; simpl; lra).
  apply IZR_le in Hn. lra.
Qed.

(** Below a twentieth the rendering is "0.0" and reads back as zero. *)
Lemma actualFStop_zero (x : R) :
  0 <= x < / 20 ->
  JS.toFixed1 x = "0.0"%string /\ JS.parseFloat (JS.toFixed1 x) = 0.
Proof.
  intros Hx.
  assert (Hn : Zfloor (10 * x + / 2) = 0%Z) by (apply Zfloor_eq; simpl; lra).
  split.
  - unfold JS.toFixed1, JS.toFixed1_nonneg.
    destruct (Rlt_dec x 0) as [Hneg | _]; [ lra | ].
    rewrite Hn. reflexivity.
  - rewrite parseFloat_toFixed1.
    destruct (Rlt_dec x 0) as [Hneg | _]; [ lra | ].
    rewrite Hn. lra.
Qed.

(** With positive focal length, pinhole size, ISO and reference f-stop:
    the pre-format exposure is positive as long as the pinhole is at most
    20 times the focal length; beyond that the f-stop is shown as "0.0"
    and the exposure computed from it is zero, whatever the flags and the
    bracket stops are. *)
Theorem exposure_positive_or_zero (settings : AppSettings)
    (condition : LightingCondition) :
  0 < focalLength settings -> 0 < pinholeSize settings ->
  0 < iso settings -> 0 < fStop condition ->
  (pinholeSize settings <= 20 * focalLength settings ->
   0 < ViewfinderScreen.exposureTime settings condition)
  /\ (20 * focalLength settings < pinholeSize settings ->
      ViewfinderScreen.calculateFStop settings = "0.0"%string
      /\ ViewfinderScreen.exposureTime settings condition = 0).
Proof.
  intros Hf Hp Hiso HR.
  assert (Hx : 0 < focalLength settings / pinholeSize settings)
    by (apply Rdiv_lt_0_compat; assumption).
  rewrite exposureTime_afterCorrection.
  unfold Spec.baseExposureTime, ViewfinderScreen.calculateFStop.
  split; intros Hsize.
  - assert (Hq : / 20 <= focalLength settings / pinholeSize settings).
    { apply Rmult_le_reg_r with (pinholeSize settings); [ assumption | ].
      replace (focalLength settings / pinholeSize settings * pinholeSize settings)
        with (focalLength settings) by (field; lra).
      lra. }
    pose proof (actualFStop_pos _ Hq) as Ha.
    set (a := JS.parseFloat _) in *.
    assert (Ht0 : 0 < 1 / iso settings * (a / fStop condition) ^ 2).
    { apply Rmult_lt_0_compat; [ apply Rdiv_lt_0_compat; lra | ].
      apply pow_lt. apply Rdiv_lt_0_compat; assumption. }
    apply afterCorrection_pos.
    destruct (useReciprocityFailure settings && JS.gt _ 1)%bool;
      [ apply exp_pos | assumption ].
  - assert (Hq : 0 <= focalLength settings / pinholeSize settings < / 20).
    { split; [ lra | ].
      apply Rmult_lt_reg_r with (pinholeSize settings); [ assumption | ].
      replace (focalLength settings / pinholeSize settings * pinholeSize settings)
        with (focalLength settings) by (field; lra).
      lra. }
    destruct (actualFStop_zero _ Hq) as [Hs Ha].
    split; [ exact Hs | ].
    rewrite Ha.
    replace (1 / iso settings * (0 / fStop condition) ^ 2) with 0
      by (field; lra).
    replace (JS.gt 0 1) with false by (symmetry; apply gt_false; lra).
    rewrite andb_false_r. unfold Spec.afterCorrection.
    destruct (useRedFilter settings); ring.
Qed.

(** Printing with one decimal, reading back and printing again gives the
    first print, and the number read back lies within a twentieth of the
    number printed. *)
Theorem toFixed1_parse_print (x : R) :
  0 <= x ->
  JS.toFixed1 (JS.parseFloat (JS.toFixed1 x)) = JS.toFixed1 x
  /\ Rabs (JS.parseFloat (JS.toFixed1 x) - x) <= / 20.
Proof.
  intros Hx. rewrite parseFloat_toFixed1.
  destruct (Rlt_dec x 0) as [Hneg | _]; [ lra | ].
  pose proof (Zfloor_bound (10 * x + / 2)) as [Hlo Hhi].
  assert (Hn : (0 <= Zfloor (10 * x + / 2))%Z) by (apply Zfloor_lub; simpl; lra).
  apply IZR_le in Hn.
  split; [ | apply Rabs_le; lra ].
  unfold JS.toFixed1.
  destruct (Rlt_dec (IZR (Zfloor (10 * x + / 2)) / 10) 0) as [Hneg | _]; [ lra | ].
  destruct (Rlt_dec x 0) as [Hneg | _]; [ lra | ].
  unfold JS.toFixed1_nonneg.
  replace (Zfloor (10 * (IZR (Zfloor (10 * x + / 2)) / 10) + / 2))
    with (Zfloor (10 * x + / 2)); [ reflexivity | ].
  symmetry. apply Zfloor_eq. lra.
Qed.

(** ** What is shown *)

Lemma append_nonempty_r (a b : string) :
  b <> EmptyString -> (a ++ b)%string <> EmptyString.
Proof.
  destruct a; simpl; [ trivial | discriminate ].
Qed.

(** [formatExposure] never returns the empty string. *)
Lemma formatExposure_nonempty (seconds : R) :
  ViewfinderScreen.formatExposure seconds <> EmptyString.
Proof.
  unfold ViewfinderScreen.formatExposure.
  destruct (JS.lt seconds 1); [ discriminate | ].
  destruct (JS.lt seconds 60); [ apply append_nonempty_r; discriminate | ].
  cbv zeta. destruct (0 <? _)%Z; apply append_nonempty_r; discriminate.
Qed.

(** Once the camera permission state is known (granted or not), the
    exposure panel and the bracket slider, which are rendered unless
    [!calculatedExposure], are rendered exactly when a non-empty condition
    name is selected and the catalog has an entry of that name: the string
    computed for it is never empty.  While the permission state is unknown
    the component renders an empty view, so neither is rendered. *)
Theorem exposure_panel_rendered_iff (catalog : list LightingCondition)
    (settings : AppSettings) (dimensions : Size) (permission : option bool) :
  ViewfinderScreen.exposurePanelRendered catalog settings dimensions permission = true
  <-> permission <> None
      /\ exists name condition,
           selectedCondition settings = Some name
           /\ name <> EmptyString
           /\ In condition catalog
           /\ condition_name condition = name.
Proof.
  assert (Hpanel :
    (if negb (truthy (ViewfinderScreen.calculatedExposure catalog settings))
     then false else true) = true
    <-> exists name condition,
          selectedCondition settings = Some name
          /\ name <> EmptyString
          /\ In condition catalog
          /\ condition_name condition = name).
  { unfold ViewfinderScreen.calculatedExposure, ViewfinderScreen.calculateExposure.
    split.
    - destruct (selectedCondition settings) as [ [ | a rest ] | ] eqn:Hsel;
        simpl; try discriminate.
      destruct (find _ catalog) as [ c | ] eqn:E; simpl; [ | discriminate ].
      intros _. apply find_some in E. destruct E as [Hin Hname].
      apply String.eqb_eq in Hname.
      exists (String a rest), c. repeat split; try assumption. discriminate.
    - intros (name & c & Hsel & Hname & Hin & Hc).
      rewrite Hsel. destruct name as [ | a rest ]; [ now elim Hname | ].
      simpl.
      destruct (find (fun c0 => String.eqb (condition_name c0) (String a rest)) catalog)
        as [ c' | ] eqn:E.
      + simpl.
        pose proof (formatExposure_nonempty
                      (ViewfinderScreen.exposureTime settings c')) as Hne.
        destruct (ViewfinderScreen.formatExposure _); [ now elim Hne | reflexivity ].
      + apply (find_none _ _ E) in Hin. rewrite Hc, String.eqb_refl in Hin.
        discriminate. }
  unfold ViewfinderScreen.exposurePanelRendered. cbv zeta.
  destruct permission as [ granted | ].
  - destruct (negb granted), (ViewfinderScreen.isDeviceLandscape dimensions);
      rewrite Hpanel; split;
      try (intros H; split; [ discriminate | exact H ]);
      intros [_ H]; exact H.
  - split; [ discriminate | ]. intros [H _]. now elim H.
Qed.

(** Rounding is not carried into the next unit.  A duration from 59.95
    seconds up to a minute is shown as "60.0s"; and from a minute on, when
    the remainder of the division by 60 is at least 59.5, the seconds are
    shown as 60 behind the unchanged minutes. *)
Theorem formatExposure_no_carry (seconds : R) :
  (59.95 <= seconds < 60 ->
   ViewfinderScreen.formatExposure seconds = "60.0s"%string)
  /\ (60 <= seconds -> 59.5 <= Spec.modulo seconds 60 ->
      ViewfinderScreen.formatExposure seconds
      = (JS.toString (Zfloor (seconds / 60)) ++ "m 60s")%string).
Proof.
  split.
  - intros [Hlo Hhi]. unfold ViewfinderScreen.formatExposure.
    replace (JS.lt seconds 1) with false by (symmetry; apply lt_false; lra).
    replace (JS.lt seconds 60) with true by (symmetry; now apply lt_true).
    unfold JS.toFixed1, JS.toFixed1_nonneg.
    destruct (Rlt_dec seconds 0) as [Hneg | _]; [ lra | ].
    replace (Zfloor (10 * seconds + / 2)) with 600%Z
      by (symmetry; apply Zfloor_eq; simpl; lra).
    reflexivity.
  - intros Hge Hrest. unfold ViewfinderScreen.formatExposure.
    replace (JS.lt seconds 1) with false by (symmetry; apply lt_false; lra).
    replace (JS.lt seconds 60) with false by (symmetry; now apply lt_false).
    destruct (rem_nonneg seconds 60) as [Hrem [_ Hlt]]; [ lra | lra | ].
    rewrite Hrem in *.
    replace (JS.Math_round (Spec.modulo seconds 60)) with 60%Z
      by (symmetry; apply Math_round_eq; lra).
    reflexivity.
Qed.

(** Between two thirds of a second and one second the reciprocal rounds
    to 1 and the exposure is shown as "1/1s". *)
Theorem formatExposure_one_over_one (seconds : R) :
  2 / 3 < seconds < 1 ->
  ViewfinderScreen.formatExposure seconds = "1/1s"%string.
Proof.
  intros [Hlo Hhi]. unfold ViewfinderScreen.formatExposure.
  replace (JS.lt seconds 1) with true by (symmetry; now apply lt_true).
  assert (Hinv : 1 < 1 / seconds < 3 / 2).
  { split.
    - apply Rmult_lt_reg_r with seconds; [ lra | ].
      replace (1 / seconds * seconds) with 1 by (field; lra). lra.
    - apply Rmult_lt_reg_r with seconds; [ lra | ].
      replace (1 / seconds * seconds) with 1 by (field; lra). lra. }
  replace (JS.Math_round (1 / seconds)) with 1%Z
    by (symmetry; apply Math_round_eq; lra).
  reflexivity.
Qed.

(** ** More on the profiles *)

(** A white space character is an entry of the table. *)
Lemma isWhiteSpace_In (character : string) :
  CameraSettingsScreen.isWhiteSpace character = true ->
  In character CameraSettingsScreen.whiteSpaceCharacters.
Proof.
  unfold CameraSettingsScreen.isWhiteSpace. intros H.
  apply existsb_exists in H. destruct H as (w & Hin & Heq).
  apply String.eqb_eq in Heq. now subst.
Qed.

Ltac by_table H :=
  apply isWhiteSpace_In in H; vm_compute in H;
  repeat (destruct H as [H | H];
          [ try discriminate H; injection H as <-; intros; subst;
            try (repeat split; reflexivity) | ]);
  try contradiction.

(** The first byte of a white space character tells its length. *)
Lemma whiteSpace_lead1 (c1 : ascii) :
  CameraSettingsScreen.isWhiteSpace (String c1 EmptyString) = true ->
  (N_of_ascii c1 <? 0x80)%N = true.
Proof. intros H. by_table H. Qed.

Lemma whiteSpace_lead2 (c1 c2 : ascii) :
  CameraSettingsScreen.isWhiteSpace (String c1 (String c2 EmptyString)) = true ->
  (N_of_ascii c1 <? 0x80)%N = false /\ (N_of_ascii c1 <? 0xE0)%N = true.
Proof. intros H. by_table H. Qed.

Lemma whiteSpace_lead3 (c1 c2 c3 : ascii) :
  CameraSettingsScreen.isWhiteSpace
    (String c1 (String c2 (String c3 EmptyString))) = true ->
  (N_of_ascii c1 <? 0x80)%N = false /\ (N_of_ascii c1 <? 0xE0)%N = false.
Proof. intros H. by_table H. Qed.

(** [trimStart] leaves nothing exactly of the strings of white space, and
    trimming the start twice changes nothing more. *)
Lemma trimStart_blank_bounded (n : nat) (s : string) :
  (String.length s <= n)%nat ->
  CameraSettingsScreen.isEmpty (CameraSettingsScreen.trimStart s)
  = Spec.allWhiteSpace s
  /\ CameraSettingsScreen.trimStart (CameraSettingsScreen.trimStart s)
     = CameraSettingsScreen.trimStart s.
Proof.
  revert s. induction n as [ | n IH ]; intros s Hlen.
  - destruct s; [ split; reflexivity | simpl in Hlen; lia ].
  - destruct s as [ | c1 r1 ]; [ split; reflexivity | ].
    simpl in Hlen.
    cbn [CameraSettingsScreen.trimStart Spec.allWhiteSpace].
    destruct (CameraSettingsScreen.isWhiteSpace (String c1 EmptyString)) eqn:E1.
    { rewrite (whiteSpace_lead1 c1 E1). simpl andb. apply IH. lia. }
    destruct r1 as [ | c2 r2 ].
    { split.
      - destruct (N_of_ascii c1 <? 0x80)%N; [ reflexivity | ].
        destruct (N_of_ascii c1 <? 0xE0)%N; reflexivity.
      - cbn [CameraSettingsScreen.trimStart]. rewrite E1. reflexivity. }
    simpl in Hlen.
    destruct (CameraSettingsScreen.isWhiteSpace
                (String c1 (String c2 EmptyString))) eqn:E2.
    { destruct (whiteSpace_lead2 c1 c2 E2) as [-> ->]. simpl andb.
      apply IH. lia. }
    destruct r2 as [ | c3 r3 ].
    { split.
      - destruct (N_of_ascii c1 <? 0x80)%N; [ reflexivity | ].
        destruct (N_of_ascii c1 <? 0xE0)%N; reflexivity.
      - cbn [CameraSettingsScreen.trimStart]. rewrite E1, E2. reflexivity. }
    simpl in Hlen.
    destruct (CameraSettingsScreen.isWhiteSpace
                (String c1 (String c2 (String c3 EmptyString)))) eqn:E3.
    { destruct (whiteSpace_lead3 c1 c2 c3 E3) as [-> ->]. simpl andb.
      apply IH. lia. }
    split.
    + destruct (N_of_ascii c1 <? 0x80)%N; [ reflexivity | ].
      destruct (N_of_ascii c1 <? 0xE0)%N; reflexivity.
    + cbn [CameraSettingsScreen.trimStart]. rewrite E1, E2, E3. reflexivity.
Qed.

(** [trim] leaves nothing exactly of the strings of white space. *)
Lemma trim_blank_iff (s : string) :
  CameraSettingsScreen.isEmpty (CameraSettingsScreen.trim s) = Spec.allWhiteSpace s.
Proof.
  destruct (trimStart_blank_bounded (String.length s) s (le_n _)) as [Hblank Hidem].
  rewrite <- Hblank. unfold CameraSettingsScreen.trim.
  destruct (CameraSettingsScreen.trimStart s) as [ | c rest ] eqn:E; [ reflexivity | ].
  cbn [CameraSettingsScreen.trimEnd]. rewrite Hidem. reflexivity.
Qed.

Lemma utf8_blank (codePoint : N) (rest : string) :
  In codePoint CameraSettingsScreen.whiteSpaceCodePoints ->
  Spec.allWhiteSpace (CameraSettingsScreen.utf8 codePoint ++ rest)
  = Spec.allWhiteSpace rest.
Proof.
  intros Hin. unfold CameraSettingsScreen.whiteSpaceCodePoints in Hin.
  simpl in Hin.
  repeat (destruct Hin as [<- | Hin]; [ reflexivity | ]). contradiction.
Qed.

(** The strings of white space are the texts made of white space
    characters. *)
Lemma utf8Text_blank (codePoints : list N) :
  Forall (fun codePoint => In codePoint CameraSettingsScreen.whiteSpaceCodePoints)
    codePoints ->
  Spec.allWhiteSpace (Spec.utf8Text codePoints) = true.
Proof.
  induction 1 as [ | codePoint rest Hin _ IH ]; [ reflexivity | ].
  simpl. rewrite (utf8_blank codePoint _ Hin). exact IH.
Qed.

Lemma whiteSpace_codePoint (character : string) :
  CameraSettingsScreen.isWhiteSpace character = true ->
  exists codePoint,
    In codePoint CameraSettingsScreen.whiteSpaceCodePoints
    /\ CameraSettingsScreen.utf8 codePoint = character.
Proof.
  intros H. apply isWhiteSpace_In in H.
  unfold CameraSettingsScreen.whiteSpaceCharacters in H.
  apply in_map_iff in H. destruct H as (codePoint & Heq & Hin).
  exists codePoint. now split.
Qed.

Lemma blank_utf8Text_bounded (n : nat) (s : string) :
  (String.length s <= n)%nat ->
  Spec.allWhiteSpace s = true ->
  exists codePoints,
    Forall (fun codePoint => In codePoint CameraSettingsScreen.whiteSpaceCodePoints)
      codePoints
    /\ s = Spec.utf8Text codePoints.
Proof.
  revert s. induction n as [ | n IH ]; intros s Hlen.
  - destruct s; [ | simpl in Hlen; lia ].
    intros _. exists []. split; [ constructor | reflexivity ].
  - destruct s as [ | c1 r1 ].
    { intros _. exists []. split; [ constructor | reflexivity ]. }
    simpl in Hlen. cbn [Spec.allWhiteSpace].
    destruct (N_of_ascii c1 <? 0x80)%N.
    { intros H. apply andb_true_iff in H. destruct H as [Hc Hrest].
      destruct (whiteSpace_codePoint _ Hc) as (cp & Hin & Hcp).
      destruct (IH r1 ltac:(lia) Hrest) as (cps & Hall & ->).
      exists (cp :: cps). split; [ now constructor | ].
      simpl. rewrite Hcp. reflexivity. }
    destruct (N_of_ascii c1 <? 0xE0)%N.
    { destruct r1 as [ | c2 r2 ]; [ discriminate | ].
      simpl in Hlen.
      intros H. apply andb_true_iff in H. destruct H as [Hc Hrest].
      destruct (whiteSpace_codePoint _ Hc) as (cp & Hin & Hcp).
      destruct (IH r2 ltac:(lia) Hrest) as (cps & Hall & ->).
      exists (cp :: cps). split; [ now constructor | ].
      simpl. rewrite Hcp. reflexivity. }
    destruct r1 as [ | c2 [ | c3 r3 ] ]; try discriminate.
    simpl in Hlen.
    intros H. apply andb_true_iff in H. destruct H as [Hc Hrest].
    destruct (whiteSpace_codePoint _ Hc) as (cp & Hin & Hcp).
    destruct (IH r3 ltac:(lia) Hrest) as (cps & Hall & ->).
    exists (cp :: cps). split; [ now constructor | ].
    simpl. rewrite Hcp. reflexivity.
Qed.

(** A string is blank exactly when it is the text of a sequence of white
    space characters. *)
Lemma allWhiteSpace_text (s : string) :
  Spec.allWhiteSpace s = true
  <-> exists codePoints,
        Forall (fun codePoint =>
                  In codePoint CameraSettingsScreen.whiteSpaceCodePoints) codePoints
        /\ s = Spec.utf8Text codePoints.
Proof.
  split.
  - apply (blank_utf8Text_bounded (String.length s)). apply le_n.
  - intros (codePoints & Hall & ->). now apply utf8Text_blank.
Qed.

Section MoreProfiles.

Import CameraSettingsScreen.

Variable JSON_stringify : list Profile -> string.
Variable JSON_parse : string -> option (list Profile).
Variable settings : AppSettings.

(** A successful save. *)
Lemma saveProfile_succeeds (w : World) :
  fault (storage w) = None ->
  isEmpty (trim (profileName w)) = false ->
  saveProfile JSON_stringify settings w
  = (Returned tt,
     {| profiles := profiles w ++ [Spec.newProfile settings w];
        profileName := EmptyString;
        storage :=
          Spec.written (storage w) "camera_profiles"
            (JSON_stringify (profiles w ++ [Spec.newProfile settings w]));
        console := console w;
        alerts := alerts w ++ [("Success", "Profile saved!")%string];
        clock := clock w |}).
Proof.
  intros Hfault Hname.
  unfold saveProfile, bind, getProfileName, Date_now, getProfiles,
    setProfiles, AsyncStorage_setItem, setProfileName, Alert_alert.
  rewrite Hname. simpl. rewrite Hfault. reflexivity.
Qed.

(** A successful delete. *)
Lemma deleteProfile_succeeds (w : World) (id : string) :
  fault (storage w) = None ->
  deleteProfile JSON_stringify id w
  = (Returned tt,
     {| profiles := filter (fun p => negb (String.eqb (profile_id p) id)) (profiles w);
        profileName := profileName w;
        storage :=
          Spec.written (storage w) "camera_profiles"
            (JSON_stringify
               (filter (fun p => negb (String.eqb (profile_id p) id)) (profiles w)));
        console := console w; alerts := alerts w; clock := clock w |}).
Proof.
  intros Hfault.
  unfold deleteProfile, bind, getProfiles, setProfiles, AsyncStorage_setItem.
  simpl. rewrite Hfault. reflexivity.
Qed.

(** Loading from a working store that holds a readable, non-empty text. *)
Lemma loadProfiles_reads (w : World) (text : string) (ps : list Profile) :
  fault (storage w) = None ->
  items (storage w) "camera_profiles" = Some text ->
  text <> EmptyString ->
  JSON_parse text = Some ps ->
  loadProfiles JSON_parse w
  = (Returned tt,
     {| profiles := ps; profileName := profileName w; storage := storage w;
        console := console w; alerts := alerts w; clock := clock w |}).
Proof.
  intros Hfault Hitem Hne Hparse.
  unfold loadProfiles, try_catch, bind, AsyncStorage_getItem, parseProfiles.
  rewrite Hfault, Hitem. destruct text as [ | a rest ]; [ now elim Hne | ].
  simpl. rewrite Hparse. reflexivity.
Qed.

End MoreProfiles.

(** A name of white space only is refused before anything else happens.
    When the name typed in is the text of a sequence of white space
    characters (any of the WhiteSpace and LineTerminator code points that
    [trim] removes, the no-break space and the other Unicode spaces
    included; the empty name is the empty sequence), [saveProfile] shows
    the error alert and returns; the profiles, the name typed in and the
    store stay as they are, and the store is not even asked, so the call
    also returns normally when the store is out of order. *)
Theorem saveProfile_refuses_blank_name
    (JSON_stringify : list CameraSettingsScreen.Profile -> string)
    (settings : AppSettings) (w : CameraSettingsScreen.World)
    (codePoints : list N) :
  Forall (fun codePoint => In codePoint CameraSettingsScreen.whiteSpaceCodePoints)
    codePoints ->
  CameraSettingsScreen.profileName w = Spec.utf8Text codePoints ->
  CameraSettingsScreen.saveProfile JSON_stringify settings w
  = (CameraSettingsScreen.Returned tt,
     {| CameraSettingsScreen.profiles := CameraSettingsScreen.profiles w;
        CameraSettingsScreen.profileName := CameraSettingsScreen.profileName w;
        CameraSettingsScreen.storage := CameraSettingsScreen.storage w;
        CameraSettingsScreen.console := CameraSettingsScreen.console w;
        CameraSettingsScreen.alerts :=
          CameraSettingsScreen.alerts w
          ++ [("Error", "Please enter a profile name")%string];
        CameraSettingsScreen.clock := CameraSettingsScreen.clock w |}).
Proof.
  intros Hall Hname.
  pose proof (utf8Text_blank codePoints Hall) as Hblank.
  rewrite <- Hname in Hblank.
  unfold CameraSettingsScreen.saveProfile, CameraSettingsScreen.bind,
    CameraSettingsScreen.getProfileName.
  rewrite trim_blank_iff, Hblank. reflexivity.
Qed.

(** Saving and starting again: after a successful [saveProfile] the
    profiles in memory are the previous ones followed by the new one and
    the name field is cleared; and a component that runs [loadProfiles] on
    the store left behind gets exactly that list, provided [JSON.parse]
    reads back what [JSON.stringify] wrote (a non-empty text). *)
Theorem save_then_reload
    (JSON_stringify : list CameraSettingsScreen.Profile -> string)
    (JSON_parse : string -> option (list CameraSettingsScreen.Profile))
    (settings : AppSettings) (w restarted : CameraSettingsScreen.World) :
  let updated :=
    CameraSettingsScreen.profiles w ++ [Spec.newProfile settings w] in
  let saved := CameraSettingsScreen.saveProfile JSON_stringify settings w in
  let reloaded := CameraSettingsScreen.loadProfiles JSON_parse restarted in
  CameraSettingsScreen.fault (CameraSettingsScreen.storage w) = None ->
  Spec.allWhiteSpace (CameraSettingsScreen.profileName w) = false ->
  JSON_stringify updated <> EmptyString ->
  JSON_parse (JSON_stringify updated) = Some updated ->
  CameraSettingsScreen.storage restarted = CameraSettingsScreen.storage (snd saved) ->
  fst saved = CameraSettingsScreen.Returned tt
  /\ CameraSettingsScreen.profiles (snd saved) = updated
  /\ CameraSettingsScreen.profileName (snd saved) = EmptyString
  /\ fst reloaded = CameraSettingsScreen.Returned tt
  /\ CameraSettingsScreen.profiles (snd reloaded) = updated
  /\ CameraSettingsScreen.console (snd reloaded)
     = CameraSettingsScreen.console restarted.
Proof.
  intros updated saved reloaded Hfault Hname Hne Hparse Hstore.
  rewrite <- trim_blank_iff in Hname.
  subst saved reloaded.
  rewrite (saveProfile_succeeds JSON_stringify settings w Hfault Hname) in *.
  simpl in Hstore. fold updated in Hstore.
  rewrite (loadProfiles_reads JSON_parse restarted (JSON_stringify updated) updated).
  - repeat split.
  - rewrite Hstore. reflexivity.
  - rewrite Hstore. reflexivity.
  - exact Hne.
  - exact Hparse.
Qed.

(** On a working store [loadProfiles] changes nothing when no text or the
    empty text is stored; it logs and keeps the profiles when the text
    stored cannot be parsed; and it replaces the profiles by the list
    parsed otherwise. *)
Theorem loadProfiles_outcomes
    (JSON_parse : string -> option (list CameraSettingsScreen.Profile))
    (w : CameraSettingsScreen.World) :
  CameraSettingsScreen.fault (CameraSettingsScreen.storage w) = None ->
  let stored :=
    CameraSettingsScreen.items (CameraSettingsScreen.storage w) "camera_profiles" in
  let result := CameraSettingsScreen.loadProfiles JSON_parse w in
  (stored = None \/ stored = Some EmptyString ->
   result = (CameraSettingsScreen.Returned tt, w))
  /\ (forall text,
        stored = Some text -> text <> EmptyString -> JSON_parse text = None ->
        fst result = CameraSettingsScreen.Returned tt
        /\ CameraSettingsScreen.profiles (snd result) = CameraSettingsScreen.profiles w
        /\ CameraSettingsScreen.console (snd result)
           = CameraSettingsScreen.console w
             ++ [("Error loading profiles:", "SyntaxError")%string])
  /\ (forall text ps,
        stored = Some text -> text <> EmptyString -> JSON_parse text = Some ps ->
        fst result = CameraSettingsScreen.Returned tt
        /\ CameraSettingsScreen.profiles (snd result) = ps
        /\ CameraSettingsScreen.console (snd result) = CameraSettingsScreen.console w).
Proof.
  intros Hfault stored result. subst stored result.
  split; [ | split ].
  - intros Hnone.
    unfold CameraSettingsScreen.loadProfiles, CameraSettingsScreen.try_catch,
      CameraSettingsScreen.bind, CameraSettingsScreen.AsyncStorage_getItem.
    rewrite Hfault. destruct Hnone as [-> | ->]; reflexivity.
  - intros text Hitem Hne Hparse.
    unfold CameraSettingsScreen.loadProfiles, CameraSettingsScreen.try_catch,
      CameraSettingsScreen.bind, CameraSettingsScreen.AsyncStorage_getItem,
      CameraSettingsScreen.parseProfiles.
    rewrite Hfault, Hitem. destruct text as [ | a rest ]; [ now elim Hne | ].
    simpl. rewrite Hparse. repeat split.
  - intros text ps Hitem Hne Hparse.
    rewrite (loadProfiles_reads JSON_parse w text ps Hfault Hitem Hne Hparse).
    repeat split.
Qed.

(** Filtering out an id no profile carries keeps the list. *)
Lemma filter_absent_id (l : list CameraSettingsScreen.Profile) (id : string) :
  (forall p, In p l -> CameraSettingsScreen.profile_id p <> id) ->
  filter (fun p => negb (String.eqb (CameraSettingsScreen.profile_id p) id)) l = l.
Proof.
  induction l as [ | p rest IH ]; intros Habsent; [ reflexivity | ].
  simpl.
  destruct (String.eqb_spec (CameraSettingsScreen.profile_id p) id) as [E | _].
  - elim (Habsent p (or_introl eq_refl) E).
  - simpl. f_equal. apply IH. intros q Hq. apply Habsent. now right.
Qed.

(** After a successful [deleteProfile] the profiles in memory are exactly
    the previous ones whose id differs from the one given (every profile
    carrying that id is gone), the list is unchanged when no profile
    carries it, and the store holds the serialisation of the list in
    memory. *)
Theorem deleteProfile_removes_id
    (JSON_stringify : list CameraSettingsScreen.Profile -> string)
    (w : CameraSettingsScreen.World) (id : string) :
  CameraSettingsScreen.fault (CameraSettingsScreen.storage w) = None ->
  let result := CameraSettingsScreen.deleteProfile JSON_stringify id w in
  let remaining := CameraSettingsScreen.profiles (snd result) in
  fst result = CameraSettingsScreen.Returned tt
  /\ (forall p,
        In p remaining
        <-> In p (CameraSettingsScreen.profiles w)
            /\ CameraSettingsScreen.profile_id p <> id)
  /\ ((forall p, In p (CameraSettingsScreen.profiles w) ->
                 CameraSettingsScreen.profile_id p <> id) ->
      remaining = CameraSettingsScreen.profiles w)
  /\ CameraSettingsScreen.items (CameraSettingsScreen.storage (snd result))
       "camera_profiles"
     = Some (JSON_stringify remaining).
Proof.
  intros Hfault result remaining. subst remaining result.
  rewrite (deleteProfile_succeeds JSON_stringify w id Hfault). simpl.
  split; [ reflexivity | split; [ | split; [ | reflexivity ] ] ].
  - intros p. rewrite filter_In. split; intros [Hin Hid]; split; try assumption.
    + intros E. rewrite E, String.eqb_refl in Hid. discriminate.
    + destruct (String.eqb_spec (CameraSettingsScreen.profile_id p) id);
        [ contradiction | reflexivity ].
  - apply filter_absent_id.
Qed.

(** Deleting the profile just saved: the id of a new profile is the clock
    reading, so deleting that id after a successful save leaves the
    previous profiles that do not carry it; the previous list comes back
    exactly when none of them was saved at the same clock reading. *)
Theorem save_then_delete
    (JSON_stringify : list CameraSettingsScreen.Profile -> string)
    (settings : AppSettings) (w : CameraSettingsScreen.World) :
  CameraSettingsScreen.fault (CameraSettingsScreen.storage w) = None ->
  Spec.allWhiteSpace (CameraSettingsScreen.profileName w) = false ->
  let id := JS.toString (CameraSettingsScreen.clock w) in
  let saved := CameraSettingsScreen.saveProfile JSON_stringify settings w in
  let deleted := CameraSettingsScreen.deleteProfile JSON_stringify id (snd saved) in
  fst deleted = CameraSettingsScreen.Returned tt
  /\ CameraSettingsScreen.profiles (snd deleted)
     = filter (fun p => negb (String.eqb (CameraSettingsScreen.profile_id p) id))
         (CameraSettingsScreen.profiles w)
  /\ (CameraSettingsScreen.profiles (snd deleted) = CameraSettingsScreen.profiles w
      <-> forall p, In p (CameraSettingsScreen.profiles w) ->
                    CameraSettingsScreen.profile_id p <> id).
Proof.
  intros Hfault Hname id saved deleted. subst saved deleted.
  rewrite <- trim_blank_iff in Hname.
  rewrite (saveProfile_succeeds JSON_stringify settings w Hfault Hname).
  cbn [snd].
  match goal with
  | |- context [CameraSettingsScreen.deleteProfile _ _ ?w1] =>
      rewrite (deleteProfile_succeeds JSON_stringify w1 id eq_refl)
  end.
  cbn [fst snd CameraSettingsScreen.profiles].
  assert (Hfilter :
    filter (fun p => negb (String.eqb (CameraSettingsScreen.profile_id p) id))
      (CameraSettingsScreen.profiles w ++ [Spec.newProfile settings w])
    = filter (fun p => negb (String.eqb (CameraSettingsScreen.profile_id p) id))
        (CameraSettingsScreen.profiles w)).
  { rewrite filter_app. simpl. fold id. rewrite String.eqb_refl. simpl.
    apply app_nil_r. }
  rewrite Hfilter.
  split; [ reflexivity | split; [ reflexivity | ] ].
  split.
  - intros Heq p Hin Hid.
    assert (Hp : In p (filter (fun p => negb (String.eqb (CameraSettingsScreen.profile_id p) id))
                         (CameraSettingsScreen.profiles w)))
      by (rewrite Heq; exact Hin).
    apply filter_In in Hp. destruct Hp as [_ Hp].
    rewrite Hid, String.eqb_refl in Hp. discriminate.
  - apply filter_absent_id.
Qed.

(** Saving a profile and loading it later brings the camera back: the
    profile a successful [saveProfile] appends carries the name typed in,
    and [loadProfile] on it hands on settings whose focal length, pinhole
    size, film format and ISO are those saved and whose orientation is the
    saved one (landscape when none was set), so the f-stop and the
    viewfinder are those of the saved settings, while the selected
    condition, the bracket stops and the two exposure flags stay those of
    the current settings.  [loadProfile] returns normally, closes the
    profile panel, shows one alert and leaves the profiles alone. *)
Theorem loadProfile_restores_camera
    (JSON_stringify : list CameraSettingsScreen.Profile -> string)
    (saved current : AppSettings)
    (w0 w : CameraSettingsScreen.World) (dimensions : Size) :
  CameraSettingsScreen.fault (CameraSettingsScreen.storage w0) = None ->
  Spec.allWhiteSpace (CameraSettingsScreen.profileName w0) = false ->
  exists profile restored,
    CameraSettingsScreen.profiles
      (snd (CameraSettingsScreen.saveProfile JSON_stringify saved w0))
    = CameraSettingsScreen.profiles w0 ++ [profile]
    /\ CameraSettingsScreen.profile_name profile = CameraSettingsScreen.profileName w0
    /\ fst (CameraSettingsScreen.loadProfile current profile w)
       = CameraSettingsScreen.Returned (restored, false)
    /\ (focalLength restored = focalLength saved
        /\ pinholeSize restored = pinholeSize saved
        /\ filmFormat restored = filmFormat saved
        /\ iso restored = iso saved)
    /\ (selectedCondition restored = selectedCondition current
        /\ bracketStops restored = bracketStops current
        /\ useReciprocityFailure restored = useReciprocityFailure current
        /\ useRedFilter restored = useRedFilter current)
    /\ ViewfinderScreen.calculateFStop restored
       = ViewfinderScreen.calculateFStop saved
    /\ ViewfinderScreen.calculateViewfinderSize restored dimensions
       = ViewfinderScreen.calculateViewfinderSize saved dimensions
    /\ CameraSettingsScreen.profiles
         (snd (CameraSettingsScreen.loadProfile current profile w))
       = CameraSettingsScreen.profiles w
    /\ CameraSettingsScreen.alerts
         (snd (CameraSettingsScreen.loadProfile current profile w))
       = CameraSettingsScreen.alerts w ++ [("Success", "Profile loaded!")%string].
Proof.
  intros Hfault Hname. rewrite <- trim_blank_iff in Hname.
  rewrite (saveProfile_succeeds JSON_stringify saved w0 Hfault Hname).
  exists (Spec.newProfile saved w0).
  unfold CameraSettingsScreen.loadProfile, CameraSettingsScreen.bind,
    CameraSettingsScreen.Alert_alert, CameraSettingsScreen.ret.
  cbn [fst snd]. eexists. split; [ reflexivity | ].
  split; [ reflexivity | ]. split; [ reflexivity | ].
  cbn. repeat split.
Qed.

(** ** The optimal pinhole *)

Lemma toFixed2_twoDecimals (x : R) : 0 <= x -> Spec.twoDecimals x (JS.toFixed2 x).
Proof.
  intros Hx. unfold JS.toFixed2, JS.toFixed2_nonneg.
  destruct (Rlt_dec x 0) as [Hneg | _]; [ lra | ].
  set (n := Zfloor (100 * x + / 2)).
  assert (Hn : (0 <= n)%Z) by (apply Zfloor_lub; simpl; lra).
  exists (n / 100)%Z, ((n / 10) mod 10)%Z, (n mod 10)%Z.
  split; [ apply Z.div_pos; lia | ].
  split; [ pose proof (Z.mod_pos_bound (n / 10) 10); lia | ].
  split; [ pose proof (Z.mod_pos_bound n 10); lia | ].
  split; [ reflexivity | ].
  pose proof (Zfloor_bound (100 * x + / 2)) as [Hlo Hhi]. fold n in Hlo, Hhi.
  assert (Hsplit : IZR n = 100 * IZR (n / 100) + 10 * IZR ((n / 10) mod 10)
                           + IZR (n mod 10)).
  { rewrite <- !mult_IZR, <- !plus_IZR. f_equal.
    assert (H1 : (n = 10 * (n / 10) + n mod 10)%Z) by (apply Z.div_mod; lia).
    assert (H2 : (n / 10 = 10 * (n / 10 / 10) + (n / 10) mod 10)%Z)
      by (apply Z.div_mod; lia).
    assert (H3 : (n / 10 / 10 = n / 100)%Z) by (rewrite Z.div_div by lia; reflexivity).
    rewrite H3 in H2. lia. }
  apply Rabs_le. lra.
Qed.

(** For a focal length that is not negative, the optimal pinhole [d]
    satisfies [d ^ 2 = 1.9 * 0.00055 * focalLength]; it grows with the
    focal length, four times the focal length doubling it; and the hint
    shows it with two decimals, within half a hundredth. *)
Theorem optimalPinhole_law (settings : AppSettings) :
  0 <= focalLength settings ->
  let d := CameraSettingsScreen.optimalPinhole settings in
  0 <= d
  /\ d ^ 2 = 1.9 * 0.00055 * focalLength settings
  /\ CameraSettingsScreen.optimalPinhole
       (withFocalLength settings (4 * focalLength settings)) = 2 * d
  /\ (forall longer, focalLength settings <= longer ->
        d <= CameraSettingsScreen.optimalPinhole (withFocalLength settings longer))
  /\ Spec.twoDecimals d (CameraSettingsScreen.calculateOptimalPinhole settings).
Proof.
  intros Hf d. subst d.
  unfold CameraSettingsScreen.calculateOptimalPinhole,
    CameraSettingsScreen.optimalPinhole, JS.Math_sqrt. simpl.
  assert (Hx : 0 <= 1.9 * 0.00055 * focalLength settings) by nra.
  split; [ apply sqrt_pos | ].
  split; [ simpl; rewrite Rmult_1_r; apply sqrt_sqrt; assumption | ].
  split.
  - replace (1.9 * 0.00055 * (4 * focalLength settings))
      with ((2 * 2) * (1.9 * 0.00055 * focalLength settings)) by ring.
    rewrite sqrt_mult_alt by lra.
    rewrite sqrt_square by lra. reflexivity.
  - split.
    + intros longer Hlonger. apply sqrt_le_1_alt. nra.
    + apply toFixed2_twoDecimals. apply sqrt_pos.
Qed.

(** ** The further properties at the sample inputs *)

Lemma phoneLandscape_is_landscape :
  JS.gt (width phoneLandscape) (height phoneLandscape) = true.
Proof. apply gt_true. simpl. lra. Qed.

Lemma sampleSettings_positiveFormat : positiveFormat sampleSettings.
Proof. unfold positiveFormat. simpl. lra. Qed.

Lemma other_drafts_fit_witness :
  width (Part002.calculateViewfinderSize sampleSettings phoneLandscape)
  / height (Part002.calculateViewfinderSize sampleSettings phoneLandscape)
  = Spec.filmAspectRatio sampleSettings.
Proof.
  apply (other_drafts_fit sampleSettings phoneLandscape).
  - unfold positiveFormat. simpl. lra.
  - unfold Spec.leavesRoom, Spec.part002Layout.
    rewrite phoneLandscape_is_landscape. simpl. lra.
Defined.

Lemma viewfinder_is_largest_witness :
  width smallFrame
  <= width (ViewfinderScreen.calculateViewfinderSize sampleSettings phoneLandscape).
Proof.
  apply (viewfinder_is_largest sampleSettings phoneLandscape smallFrame).
  - unfold positiveFormat. simpl. lra.
  - unfold Spec.fitsBox, Spec.viewfinderLayout, Spec.filmAspectRatio,
      Spec.effectiveWidth, Spec.effectiveHeight,
      Spec.widthBudget, Spec.candidateHeight.
    rewrite phoneLandscape_is_landscape. simpl. lra.
Defined.

Lemma viewfinder_without_room_witness :
  height (ViewfinderScreen.calculateViewfinderSize sampleSettings tinyLandscape) <= 0.
Proof.
  apply (viewfinder_without_room sampleSettings tinyLandscape).
  - unfold positiveFormat. simpl. lra.
  - simpl. lra.
  - simpl. lra.
  - unfold Spec.leavesRoom, Spec.viewfinderLayout.
    replace (JS.gt (width tinyLandscape) (height tinyLandscape)) with true
      by (symmetry; apply gt_true; simpl; lra).
    simpl. lra.
Defined.

Lemma viewfinder_scale_invariant_witness :
  ViewfinderScreen.calculateViewfinderSize
    (withFilm sampleSettings (10 * 9) (10 * 6) None) phonePortrait
  = ViewfinderScreen.calculateViewfinderSize
      (withFilm sampleSettings 9 6 None) phonePortrait.
Proof.
  apply (viewfinder_scale_invariant sampleSettings phonePortrait 10 9 6 None); lra.
Defined.

Lemma handleBracketChange_scales_witness :
  ViewfinderScreen.exposureTime
    (ViewfinderScreen.handleBracketChange sampleSettings 1) brightSun
  < ViewfinderScreen.exposureTime
      (ViewfinderScreen.handleBracketChange sampleSettings 2) brightSun.
Proof.
  apply (handleBracketChange_scales sampleSettings brightSun).
  - change (ViewfinderScreen.handleBracketChange sampleSettings 0) with sampleSettings.
    rewrite (proj1 sample_exposure). lra.
  - lra.
Defined.

Lemma exposure_inverse_to_iso_witness :
  ViewfinderScreen.exposureTime
    (withIso (withReciprocityFailure sampleSettings false) (2 * 1)) brightSun
  = ViewfinderScreen.exposureTime
      (withReciprocityFailure sampleSettings false) brightSun / 2.
Proof.
  apply (exposure_inverse_to_iso (withReciprocityFailure sampleSettings false)
           brightSun 2).
  - reflexivity.
  - lra.
  - simpl. lra.
Defined.

Lemma exposure_positive_or_zero_witness :
  0 < ViewfinderScreen.exposureTime sampleSettings brightSun.
Proof.
  apply (exposure_positive_or_zero sampleSettings brightSun); simpl; lra.
Defined.

Lemma actualFStop_one_decimal_witness :
  exists n : Z,
    JS.parseFloat (ViewfinderScreen.calculateFStop sampleSettings) = IZR n / 10
    /\ Rabs (focalLength sampleSettings / pinholeSize sampleSettings - IZR n / 10)
       <= / 20.
Proof.
  apply (actualFStop_one_decimal sampleSettings); simpl; lra.
Defined.

Lemma toFixed1_parse_print_witness :
  JS.toFixed1 (JS.parseFloat (JS.toFixed1 2.3)) = JS.toFixed1 2.3.
Proof.
  apply (toFixed1_parse_print 2.3). lra.
Defined.

Lemma formatExposure_no_carry_witness :
  ViewfinderScreen.formatExposure 119.6
  = (JS.toString (Zfloor (119.6 / 60)) ++ "m 60s")%string.
Proof.
  apply (formatExposure_no_carry 119.6).
  - lra.
  - unfold Spec.modulo.
    replace (Zfloor (119.6 / 60)) with 1%Z
      by (symmetry; apply Zfloor_eq; simpl; lra).
    lra.
Defined.

Lemma formatExposure_one_over_one_witness :
  ViewfinderScreen.formatExposure 0.9 = "1/1s"%string.
Proof.
  apply (formatExposure_one_over_one 0.9). lra.
Defined.

Lemma saveProfile_refuses_blank_name_witness :
  fst (CameraSettingsScreen.saveProfile sampleStringify sampleSettings blankWorld)
  = CameraSettingsScreen.Returned tt.
Proof.
  rewrite (saveProfile_refuses_blank_name sampleStringify sampleSettings blankWorld
             [0x20; 0xA0; 0x2003]%N).
  - reflexivity.
  - repeat constructor; simpl; tauto.
  - reflexivity.
Defined.

Lemma save_then_reload_witness :
  CameraSettingsScreen.profiles
    (snd (CameraSettingsScreen.loadProfiles sampleParse
            (snd (CameraSettingsScreen.saveProfile sampleStringify sampleSettings
                    workingWorld))))
  = [oldProfile; Spec.newProfile sampleSettings workingWorld].
Proof.
  apply (save_then_reload sampleStringify sampleParse sampleSettings workingWorld
           (snd (CameraSettingsScreen.saveProfile sampleStringify sampleSettings
                   workingWorld))).
  - reflexivity.
  - reflexivity.
  - discriminate.
  - reflexivity.
  - reflexivity.
Defined.

Lemma loadProfiles_outcomes_witness :
  CameraSettingsScreen.loadProfiles sampleParse workingWorld
  = (CameraSettingsScreen.Returned tt, workingWorld).
Proof.
  apply (loadProfiles_outcomes sampleParse workingWorld eq_refl).
  left. reflexivity.
Defined.

Lemma deleteProfile_removes_id_witness :
  fst (CameraSettingsScreen.deleteProfile sampleStringify "1600000000000" workingWorld)
  = CameraSettingsScreen.Returned tt.
Proof.
  apply (deleteProfile_removes_id sampleStringify workingWorld "1600000000000" eq_refl).
Defined.

Lemma save_then_delete_witness :
  CameraSettingsScreen.profiles
    (snd (CameraSettingsScreen.deleteProfile sampleStringify
            (JS.toString (CameraSettingsScreen.clock workingWorld))
            (snd (CameraSettingsScreen.saveProfile sampleStringify sampleSettings
                    workingWorld))))
  = CameraSettingsScreen.profiles workingWorld.
Proof.
  apply (save_then_delete sampleStringify sampleSettings workingWorld eq_refl eq_refl).
  intros p [<- | []]. discriminate.
Defined.

Lemma loadProfile_restores_camera_witness :
  exists profile restored,
    CameraSettingsScreen.profiles
      (snd (CameraSettingsScreen.saveProfile sampleStringify sampleSettings workingWorld))
    = CameraSettingsScreen.profiles workingWorld ++ [profile]
    /\ fst (CameraSettingsScreen.loadProfile moonlightSettings profile blankWorld)
       = CameraSettingsScreen.Returned (restored, false)
    /\ focalLength restored = focalLength sampleSettings.
Proof.
  destruct (loadProfile_restores_camera sampleStringify sampleSettings
              moonlightSettings workingWorld blankWorld phonePortrait
              eq_refl eq_refl)
    as (profile & restored & H1 & _ & H2 & (H3 & _) & _).
  exists profile, restored. repeat split; assumption.
Defined.

Lemma optimalPinhole_law_witness :
  CameraSettingsScreen.optimalPinhole
    (withFocalLength sampleSettings (4 * focalLength sampleSettings))
  = 2 * CameraSettingsScreen.optimalPinhole sampleSettings.
Proof.
  apply (optimalPinhole_law sampleSettings). simpl. lra.
Defined.
